(** * ice-flow-limiter: a rate-limiting reverse proxy (main.go)

    A shallow embedding of [main.go]: the forwarding handler [RPHandler],
    the route loader [LoadGateway] and the bootstrap in [main], together
    with the parts of the packages they call (time, net/http, prometheus,
    throttled) that the properties below depend on. *)

From Stdlib Require Import ZArith Lia.
From stdpp Require Import base strings list gmap pretty.

Open Scope Z_scope.

(** ** Package time: durations are integers counting nanoseconds *)

Module time.
Definition Nanosecond : Z := 1.
Definition Millisecond : Z := 1000000.
Definition Second : Z := 1000000000.

(** [Duration.Milliseconds]: integer division truncating toward zero. *)
Definition Milliseconds (d : Z) : Z := d `quot` Millisecond.
End time.

(** ** Results of fallible calls *)

Inductive result (A : Type) : Type :=
  | Ok (a : A)
  | Err (msg : string).
Arguments Ok {A} a.
Arguments Err {A} msg.

(** ** Package throttled: the GCRA limiter behind every route *)

Module throttled.

Record Rate := { period : Z; count : Z }.

Record RateQuota := { MaxRate : Rate; MaxBurst : Z }.

(** Modelled from the spec: [throttled.PerSec] is code of a dependency that
    is not under src/. The spec gives [emissionInterval = 1/ratePerSecond];
    durations are nanosecond integers, so the interval of a rate of [n]
    requests per second is the integer quotient of one second by [n]. *)
Definition PerSec (n : Z) : Rate :=
  {| period := time.Second `quot` n; count := n |}.

(** The compiled limiter of one route. *)
Record GCRARateLimiter := {
  emissionInterval : Z;
  delayVariationTolerance : Z
}.

(** Modelled from the spec: [throttled.NewGCRARateLimiter] is not under
    src/. "ratePerSecond <= 0 is a configuration error raised at limiter
    construction"; the data model asks for [burst >= 0]; and
    [delayVariationTolerance = burst * emissionInterval]. The store handed
    to the constructor is the single store created in [main]; its contents
    are threaded through [Admit] below. *)
Definition NewGCRARateLimiter (quota : RateQuota) : result GCRARateLimiter :=
  if count (MaxRate quota) <=? 0 then
    Err "invalid RateQuota: MaxRate must be greater than zero"
  else if MaxBurst quota <? 0 then
    Err "invalid RateQuota: MaxBurst must be greater than or equal to zero"
  else
    Ok {| emissionInterval := period (MaxRate quota);
          delayVariationTolerance := MaxBurst quota * period (MaxRate quota) |}.

(** The verdict of one admission attempt, with the timing data the spec's
    algorithm computes in each case. *)
Inductive AdmissionDecision :=
  | Allow (remaining : Z) (resetAfter : Z)
  | Deny (retryAfter : Z).

Definition allowed (d : AdmissionDecision) : bool :=
  match d with Allow _ _ => true | Deny _ => false end.

(** floor and ceiling of [a / b] for a positive [b]. *)
Definition floor_div (a b : Z) : Z := a `div` b.
Definition ceil_div (a b : Z) : Z := - ((- a) `div` b).

(** Modelled from the spec: the admission algorithm of section 4.1
    ([RateLimit] of the dependency, not under src/). The store maps a
    classification key to its theoreticalArrivalTime; a key never seen
    before starts at [now]. *)
Definition Admit (g : GCRARateLimiter) (store : gmap string Z)
    (key : string) (now : Z) : AdmissionDecision * gmap string Z :=
  let TAT := default now (store !! key) in
  let newTAT := Z.max TAT now + emissionInterval g in
  let allowedAt := newTAT - delayVariationTolerance g - emissionInterval g in
  if now <? allowedAt then
    (Deny (allowedAt - now), store)
  else
    (Allow (floor_div (delayVariationTolerance g) (emissionInterval g)
            - ceil_div (newTAT - now - emissionInterval g) (emissionInterval g))
           (newTAT - now),
     <[key := newTAT]> store).

(** One admission attempt of a trace: the limiter of the route it arrives
    on, its classification key and the instant it arrives at. *)
Record Attempt := {
  at_limiter : GCRARateLimiter;
  at_key : string;
  at_now : Z
}.

(** The attempt of a request arriving at [now] on the route of limiter [g],
    classified under [k]. *)
Definition at_instant (g : GCRARateLimiter) (k : string) (now : Z) : Attempt :=
  {| at_limiter := g; at_key := k; at_now := now |}.

Definition attempt (store : gmap string Z) (a : Attempt)
    : AdmissionDecision * gmap string Z :=
  Admit (at_limiter a) store (at_key a) (at_now a).

(** Attempts against one store are serialised: each sees the store left by
    the one before. [exec] is the store at the end, [decisions] the
    verdicts in order. *)
Fixpoint exec (store : gmap string Z) (l : list Attempt) : gmap string Z :=
  match l with
  | [] => store
  | a :: l' => exec (attempt store a).2 l'
  end.

Fixpoint decisions (store : gmap string Z) (l : list Attempt)
    : list (string * AdmissionDecision) :=
  match l with
  | [] => []
  | a :: l' =>
      let '(d, store') := attempt store a in
      (at_key a, d) :: decisions store' l'
  end.


Definition verdicts (store : gmap string Z) (l : list Attempt) : list bool :=
  (λ kd, allowed kd.2) <$> decisions store l.

End throttled.

(** ** Outcomes of start-up code

    Start-up either goes on with a value, or ends the process through
    [log.Fatal] (exit status 1) or through a panic. *)

Inductive outcome (A : Type) : Type :=
  | Done (a : A)
  | Fatal (msg : string)
  | Panic (msg : string).
Arguments Done {A} a.
Arguments Fatal {A} msg.
Arguments Panic {A} msg.

Definition completes {A} (o : outcome A) : bool :=
  match o with Done _ => true | _ => false end.

(** Sequencing: a fatal exit or a panic ends the start-up at once. *)
#[global] Instance outcome_bind : MBind outcome := λ A B f o,
  match o with
  | Done a => f a
  | Fatal msg => Fatal msg
  | Panic msg => Panic msg
  end.

(** ** Package prometheus: counters and latency histograms

    An instrument is identified by its fully qualified name; the registry
    refuses a second instrument of the same name and [MustRegister] panics
    on that refusal. *)

Module prometheus.

(** One latency observation: the labels (method, route, code) and the
    observed value. *)
Record Observation := {
  ob_histogram : string;
  ob_method : string;
  ob_route : string;
  ob_code : string;
  ob_value : Z
}.

Record Metrics := {
  counters : gmap string Z;
  observations : list Observation
}.

Definition no_metrics : Metrics := {| counters := ∅; observations := [] |}.

Definition counter_value (name : string) (m : Metrics) : Z :=
  default 0 (counters m !! name).

(** [Counter.Inc]. *)
Definition Inc (name : string) (m : Metrics) : Metrics :=
  {| counters := <[name := counter_value name m + 1]> (counters m);
     observations := observations m |}.

(** [HistogramVec.With(labels).Observe(v)]. *)
Definition Observe (o : Observation) (m : Metrics) : Metrics :=
  {| counters := counters m; observations := observations m ++ [o] |}.

Definition MustRegister (name : string) (registry : gset string)
    : outcome (gset string) :=
  if decide (name ∈ registry) then
    Panic ("duplicate metrics collector registration attempted: " +:+ name)
  else Done ({[name]} ∪ registry).

End prometheus.

(** ** Package net/http: requests, responses, the response writer, the mux *)

Module http.

Definition StatusOK : Z := 200.
Definition StatusTooManyRequests : Z := 429.
Definition StatusInternalServerError : Z := 500.

(** The inbound request, as far as the gateway reads it. *)
Record Request := {
  Method : string;
  RequestURI : string;
  URLPath : string;
  Header : gmap string (list string);
  Body : string
}.

(** An outbound request built by [http.NewRequest]. *)
Record ClientRequest := {
  cr_Method : string;
  cr_URL : string;
  cr_Header : gmap string (list string);
  cr_Body : string
}.

(** A backend response as [client.Do] returns it. The body is a stream:
    it delivers [resp_Body] and then ends, cleanly or with a read error. *)
Record Response := {
  resp_StatusCode : Z;
  resp_Header : gmap string (list string);
  resp_Body : string;
  resp_BodyErr : option string
}.

(** The state of a [ResponseWriter]: the header map the handler edits, the
    status line and headers once they are sent, and the body bytes written
    so far. Writes to the caller are taken to succeed. *)
Record ResponseWriter := {
  rw_header : gmap string (list string);
  rw_sent : option (Z * gmap string (list string));
  rw_body : string
}.

Definition new_writer : ResponseWriter :=
  {| rw_header := ∅; rw_sent := None; rw_body := EmptyString |}.

Definition set_header (k : string) (v : list string) (w : ResponseWriter)
    : ResponseWriter :=
  {| rw_header := <[k := v]> (rw_header w);
     rw_sent := rw_sent w; rw_body := rw_body w |}.

(** [for k, v := range src { dst[k] = v }]: every key of [src] is set in
    [dst]; the other keys of [dst] stay. *)
Definition copy_header (src dst : gmap string (list string))
    : gmap string (list string) := src ∪ dst.

(** [w.WriteHeader(code)]: the first call sends the status line with the
    header map as it is then; a later call is superfluous and ignored. *)
Definition WriteHeader (code : Z) (w : ResponseWriter) : ResponseWriter :=
  match rw_sent w with
  | Some _ => w
  | None => {| rw_header := rw_header w;
               rw_sent := Some (code, rw_header w);
               rw_body := rw_body w |}
  end.

(** [w.Write(data)]: sends the header with status 200 if none was sent. *)
Definition Write (data : string) (w : ResponseWriter) : ResponseWriter :=
  let w := WriteHeader StatusOK w in
  {| rw_header := rw_header w; rw_sent := rw_sent w;
     rw_body := rw_body w +:+ data |}.

Definition newline : string := String (Ascii.ascii_of_nat 10) EmptyString.

(** [http.Error(w, msg, code)]: the error headers, the status line, and the
    message followed by a newline as the body. *)
Definition Error (msg : string) (code : Z) (w : ResponseWriter)
    : ResponseWriter :=
  let w := set_header "Content-Type" ["text/plain; charset=utf-8"] w in
  let w := set_header "X-Content-Type-Options" ["nosniff"] w in
  let w := WriteHeader code w in
  Write (msg +:+ newline) w.

(** The status code the caller receives (200 if the handler never wrote). *)
Definition final_status (w : ResponseWriter) : Z :=
  match rw_sent w with Some (code, _) => code | None => StatusOK end.


(** [io.Copy(w, resp.Body)]: writes what the stream delivers and returns
    the stream's error, if any. *)
Definition Copy (resp : Response) (w : ResponseWriter)
    : ResponseWriter * option string :=
  (if decide (resp_Body resp = EmptyString) then w else Write (resp_Body resp) w,
   resp_BodyErr resp).

End http.

(** ** The world a handler runs in *)

(** What the gateway does not decide: the clock, whether an outbound request
    can be built, and what the backend answers to the n-th outbound call. *)
Record Env := {
  clock : nat → Z;
  NewRequest_err : string → string → option string;
  backend_Do : nat → http.ClientRequest → result http.Response
}.

(** The shared mutable state: the limiter store, the metric instruments, the
    outbound calls made so far, and the number of clock readings taken. *)
Record World := {
  store : gmap string Z;
  metrics : prometheus.Metrics;
  outbound : list http.ClientRequest;
  ticks : nat
}.

Definition new_world : World :=
  {| store := ∅; metrics := prometheus.no_metrics; outbound := []; ticks := 0 |}.

Definition set_store (st : gmap string Z) (s : World) : World :=
  {| store := st; metrics := metrics s; outbound := outbound s; ticks := ticks s |}.

Definition set_metrics (m : prometheus.Metrics) (s : World) : World :=
  {| store := store s; metrics := m; outbound := outbound s; ticks := ticks s |}.

(** [time.Now()]: one reading of the clock. *)
Definition time_Now (env : Env) (s : World) : Z * World :=
  (clock env (ticks s),
   {| store := store s; metrics := metrics s; outbound := outbound s;
      ticks := S (ticks s) |}).

(** [time.Since(start)]. *)
Definition time_Since (env : Env) (start : Z) (s : World) : Z * World :=
  let '(now, s) := time_Now env s in (now - start, s).

(** [http.NewRequest(method, url, body)]: fails on a method or URL it cannot
    accept; an empty method means GET; the new request has no headers. *)
Definition http_NewRequest (env : Env) (method url body : string)
    : result http.ClientRequest :=
  match NewRequest_err env method url with
  | Some err => Err err
  | None =>
      Ok {| http.cr_Method := if decide (method = EmptyString) then "GET" else method;
            http.cr_URL := url;
            http.cr_Header := ∅;
            http.cr_Body := body |}
  end.

(** [client.Do(req)]: one outbound call, logged in the world. *)
Definition client_Do (env : Env) (req : http.ClientRequest) (s : World)
    : result http.Response * World :=
  (backend_Do env (length (outbound s)) req,
   {| store := store s; metrics := metrics s;
      outbound := outbound s ++ [req]; ticks := ticks s |}).

Definition Handler : Type :=
  Env → World → http.ResponseWriter → http.Request → World * http.ResponseWriter.

(** ** main.go *)

Record GatewayItem := {
  Frontend : string;
  Backend : string;
  MaxReqPerSec : Z;
  MaxBurst : Z;
  Label : string
}.

Record Configuration := {
  Routes : list GatewayItem;
  Metrics : bool;
  Port : string
}.

(** [ResponseTime]: the histogram of one route, known by its name. *)
Record ResponseTime := { responseTimeHistogram : string }.

(** [strconv.Itoa]. *)
Definition Itoa (n : Z) : string := pretty n.

Definition Collect (resp : ResponseTime) (method route code : string)
    (responseTime : Z) (s : World) : World :=
  set_metrics
    (prometheus.Observe
       {| prometheus.ob_histogram := responseTimeHistogram resp;
          prometheus.ob_method := method;
          prometheus.ob_route := route;
          prometheus.ob_code := code;
          prometheus.ob_value := responseTime |}
       (metrics s)) s.

Definition histogram_name (label : string) : string :=
  label +:+ "_http_request_duration_ms".

Definition counter_name (label : string) : string :=
  label +:+ "_requests_total".

Definition NewResponseTime (label : string) (registry : gset string)
    : outcome (ResponseTime * gset string) :=
  registry ← prometheus.MustRegister (histogram_name label) registry;
  Done ({| responseTimeHistogram := histogram_name label |}, registry).

(** The guarded call [if responseTimeCollector != nil { ...Collect(...) }]
    with the elapsed time read just before it. *)
Definition collect_if (env : Env) (responseTimeCollector : option ResponseTime)
    (r : http.Request) (code : Z) (start : Z) (s : World) : World :=
  match responseTimeCollector with
  | Some c =>
      let '(elapsed, s) := time_Since env start s in
      Collect c (http.Method r) (http.RequestURI r) (Itoa code)
              (time.Milliseconds elapsed) s
  | None => s
  end.

Definition RPHandler (backend : string) (requestTotalCounter : option string)
    (responseTimeCollector : option ResponseTime) : Handler :=
  λ env s w r,
    let '(start, s) := time_Now env s in
    let s := match requestTotalCounter with
             | Some c => set_metrics (prometheus.Inc c (metrics s)) s
             | None => s
             end in
    match http_NewRequest env (http.Method r) backend (http.Body r) with
    | Err err =>
        let w := http.Error err http.StatusInternalServerError w in
        let s := collect_if env responseTimeCollector r
                   http.StatusInternalServerError start s in
        (s, w)
    | Ok req =>
        let req := {| http.cr_Method := http.cr_Method req;
                      http.cr_URL := http.cr_URL req;
                      http.cr_Header :=
                        http.copy_header (http.Header r) (http.cr_Header req);
                      http.cr_Body := http.cr_Body req |} in
        let '(res, s) := client_Do env req s in
        match res with
        | Err err =>
            let w := http.Error err http.StatusInternalServerError w in
            let s := collect_if env responseTimeCollector r
                       http.StatusInternalServerError start s in
            (s, w)
        | Ok resp =>
            let w := {| http.rw_header :=
                          http.copy_header (http.resp_Header resp) (http.rw_header w);
                        http.rw_sent := http.rw_sent w;
                        http.rw_body := http.rw_body w |} in
            let w := http.WriteHeader (http.resp_StatusCode resp) w in
            let '(w, copy_err) := http.Copy resp w in
            let '(s, w) :=
              match copy_err with
              | Some err =>
                  let w := http.Error err http.StatusInternalServerError w in
                  (collect_if env responseTimeCollector r
                     http.StatusInternalServerError start s, w)
              | None => (s, w)
              end in
            let s := collect_if env responseTimeCollector r
                       http.StatusOK start s in
            (s, w)
        end
    end.

(** ** The rate-limiting middleware and the mux *)

Record VaryBy := { Path : bool }.

Record HTTPRateLimiter := {
  RateLimiter : throttled.GCRARateLimiter;
  VaryBy_ : VaryBy
}.

(** The classification key of a request: its path when [Path] is set. *)
Definition Key (v : VaryBy) (r : http.Request) : string :=
  if Path v then http.URLPath r else EmptyString.

(** Modelled from the spec: [HTTPRateLimiter.RateLimit] is code of the
    dependency throttled, not under src/. Section 4.4, steps 3 to 5: ask the
    limiter for the route's key; if denied, answer with the rate-limit
    response (status 429 and the retry delay as an informational header) and
    stop; if admitted, run the wrapped handler. The middleware is built from
    the limiter and the key rule alone (main.go, lines 113 to 116): it holds
    no metric instrument. *)
Definition RateLimit (t : HTTPRateLimiter) (h : Handler) : Handler :=
  λ env s w r,
    let k := Key (VaryBy_ t) r in
    let '(now, s) := time_Now env s in
    let '(d, st) := throttled.Admit (RateLimiter t) (store s) k now in
    let s := set_store st s in
    match d with
    | throttled.Deny retryAfter =>
        (s, http.Error "limit exceeded" http.StatusTooManyRequests
              (http.set_header "Retry-After" [pretty retryAfter] w))
    | throttled.Allow _ _ => h env s w r
    end.

(** [ServeMux.Handle]: registers the handler for the pattern; panics on an
    empty pattern and on a pattern that is already registered. *)
Definition mux_Handle (pattern : string) (h : Handler)
    (mux : gmap string Handler) : outcome (gmap string Handler) :=
  if decide (pattern = EmptyString) then Panic "http: invalid pattern"
  else match mux !! pattern with
       | Some _ => Panic ("http: multiple registrations for " +:+ pattern)
       | None => Done (<[pattern := h]> mux)
       end.

(** [promhttp.Handler()]: the scrape endpoint; it reads the instruments and
    changes nothing the gateway depends on. *)
Definition promhttp_Handler : Handler :=
  λ env s w r, (s, http.WriteHeader http.StatusOK w).

(** ** LoadGateway and main *)

(** The store argument of the source is the pointer to the one store of the
    process; its contents live in [World] and loading does not touch them. *)
Fixpoint LoadGateway (mux : gmap string Handler) (registry : gset string)
    (items : list GatewayItem) (metrics : bool)
    : outcome (gmap string Handler * gset string) :=
  match items with
  | [] => Done (mux, registry)
  | i :: items' =>
      let quota := {| throttled.MaxRate := throttled.PerSec (MaxReqPerSec i);
                      throttled.MaxBurst := MaxBurst i |} in
      match throttled.NewGCRARateLimiter quota with
      | Err err => Fatal err
      | Ok rateLimiter =>
          let httpRateLimiter :=
            {| RateLimiter := rateLimiter; VaryBy_ := {| Path := true |} |} in
          if metrics then
            let requestTotalCounter := counter_name (Label i) in
            registry ← prometheus.MustRegister requestTotalCounter registry;
            '(responseTimeCollector, registry) ← NewResponseTime (Label i) registry;
            mux ← mux_Handle (Frontend i)
                    (RateLimit httpRateLimiter
                       (RPHandler (Backend i) (Some requestTotalCounter)
                                  (Some responseTimeCollector))) mux;
            LoadGateway mux registry items' metrics
          else
            mux ← mux_Handle (Frontend i)
                    (RateLimit httpRateLimiter (RPHandler (Backend i) None None))
                    mux;
            LoadGateway mux registry items' metrics
      end
  end.

(** The quota [LoadGateway] derives from an item. *)
Definition quota_of (i : GatewayItem) : throttled.RateQuota :=
  {| throttled.MaxRate := throttled.PerSec (MaxReqPerSec i);
     throttled.MaxBurst := MaxBurst i |}.

(** The handler a loaded route serves with: the forwarding handler, with the
    route's instruments when metrics are on, behind the route's limiter. *)
Definition route_handler (i : GatewayItem)
    (rateLimiter : throttled.GCRARateLimiter) (metrics : bool) : Handler :=
  RateLimit {| RateLimiter := rateLimiter; VaryBy_ := {| Path := true |} |}
    (if metrics then
       RPHandler (Backend i) (Some (counter_name (Label i)))
                 (Some {| responseTimeHistogram := histogram_name (Label i) |})
     else RPHandler (Backend i) None None).

Record Server := {
  srv_Handler : gmap string Handler;
  Addr : string;
  WriteTimeout : Z;
  ReadTimeout : Z
}.

(** Modelled from the spec: [memstore.New] is code of a dependency, not under
    src/: the Rate Budget Store, empty at start. Its capacity bounds the
    number of keys it keeps; the keys here are the route paths, and eviction
    is not part of this model. *)
Definition memstore_New (maxKeys : Z) : result (gmap string Z) := Ok ∅.

(** [main] from the configuration on: everything up to the call of
    [srv.ListenAndServe()]. [Done srv] means the process starts serving with
    [srv]. *)
Definition start (config : Configuration) : outcome Server :=
  let mux : gmap string Handler := ∅ in
  match memstore_New 65536 with
  | Err err => Fatal err
  | Ok _ =>
      '(mux, _) ← LoadGateway mux ∅ (Routes config) (Metrics config);
      mux ← (if Metrics config
             then mux_Handle "/metrics" promhttp_Handler mux
             else Done mux);
      Done {| srv_Handler := mux;
              Addr := "127.0.0.1:" +:+ Port config;
              WriteTimeout := 15 * time.Second;
              ReadTimeout := 15 * time.Second |}
  end.

(** [main]: [readFile] is what [os.ReadFile] returns for rockhopper.yaml and
    [Unmarshal] what [yaml.Unmarshal] makes of its contents. *)
Definition main (readFile : result string)
    (Unmarshal : string → result Configuration) : outcome Server :=
  match readFile with
  | Err err => Fatal ("readfile err" +:+ err)
  | Ok data =>
      match Unmarshal data with
      | Err err => Fatal ("unmarshal err" +:+ err)
      | Ok config => start config
      end
  end.

(** ** Sample routes, requests and backends *)

Module sample.

(** The route of the spec's scenario: two requests per second, burst 1. *)
Definition route_a : GatewayItem :=
  {| Frontend := "/a"; Backend := "http://127.0.0.1:9000/echo";
     MaxReqPerSec := 2; MaxBurst := 1; Label := "a" |}.

(** The limiter of [route_a]: half a second between requests, and a
    tolerance of one interval. *)
Definition limiter_a : throttled.GCRARateLimiter :=
  {| throttled.emissionInterval := 500000000;
     throttled.delayVariationTolerance := 500000000 |}.

(** A route without burst: one request per second. *)
Definition route_b : GatewayItem :=
  {| Frontend := "/b"; Backend := "http://127.0.0.1:9001/";
     MaxReqPerSec := 1; MaxBurst := 0; Label := "b" |}.

(** A second item declared on the path of [route_a]. *)
Definition route_a' : GatewayItem :=
  {| Frontend := "/a"; Backend := "http://127.0.0.1:9002/";
     MaxReqPerSec := 5; MaxBurst := 3; Label := "a2" |}.

(** An item with a rate of zero. *)
Definition route_z : GatewayItem :=
  {| Frontend := "/z"; Backend := "http://127.0.0.1:9003/";
     MaxReqPerSec := 0; MaxBurst := 1; Label := "z" |}.

Definition config_a : Configuration :=
  {| Routes := [route_a]; Metrics := false; Port := "8080" |}.

Definition get (path : string) : http.Request :=
  {| http.Method := "GET"; http.RequestURI := path; http.URLPath := path;
     http.Header := {[ "Accept" := ["*/*"] ]}; http.Body := EmptyString |}.

(** A backend that answers 404. *)
Definition resp_not_found : http.Response :=
  {| http.resp_StatusCode := 404;
     http.resp_Header := {[ "Content-Type" := ["text/plain"] ]};
     http.resp_Body := "no such page";
     http.resp_BodyErr := None |}.

(** A backend whose body breaks off after four bytes. *)
Definition resp_broken : http.Response :=
  {| http.resp_StatusCode := 200;
     http.resp_Header := ∅;
     http.resp_Body := "part";
     http.resp_BodyErr := Some "unexpected EOF" |}.

(** A backend that answers 200 with a body. *)
Definition resp_ok : http.Response :=
  {| http.resp_StatusCode := 200;
     http.resp_Header := {[ "Content-Type" := ["text/plain"] ]};
     http.resp_Body := "pong";
     http.resp_BodyErr := None |}.

(** A world in which the clock stands still, every outbound request can be
    built and the backend always answers [resp]. *)
Definition env_of (resp : http.Response) : Env :=
  {| clock := λ _, 0;
     NewRequest_err := λ _ _, None;
     backend_Do := λ _ _, Ok resp |}.

(** The instruments of [route_a] when metrics are on. *)
Definition collector_a : ResponseTime :=
  {| responseTimeHistogram := histogram_name "a" |}.

(** The limiter of [route_b] and what loading [route_b] alone, with metrics
    on, leaves in the mux and in the registry. *)
Definition limiter_b : throttled.GCRARateLimiter :=
  {| throttled.emissionInterval := 1000000000;
     throttled.delayVariationTolerance := 0 |}.

Definition handler_b : Handler := route_handler route_b limiter_b true.

Definition mux_b : gmap string Handler := <["/b" := handler_b]> ∅.

Definition registry_b : gset string :=
  {[ "b_http_request_duration_ms" ]} ∪ ({[ "b_requests_total" ]} ∪ ∅).

(** The server [main] ends up with for [config_a]. *)
Definition server_a : Server :=
  {| srv_Handler := <["/a" := route_handler route_a limiter_a false]> ∅;
     Addr := "127.0.0.1:8080";
     WriteTimeout := 15000000000;
     ReadTimeout := 15000000000 |}.

End sample.

(** ** Notions used to state what the handler and the loader do *)

(** The outbound request [RPHandler] builds for the inbound request [r]:
    the inbound method (GET if it is empty), the backend URL as configured,
    the inbound headers and the inbound body. *)
Definition outbound_request (backend : string) (r : http.Request)
    : http.ClientRequest :=
  {| http.cr_Method :=
       if decide (http.Method r = EmptyString) then "GET" else http.Method r;
     http.cr_URL := backend;
     http.cr_Header := http.Header r;
     http.cr_Body := http.Body r |}.

(** The world once the handler has read the clock for [start] and, with a
    counter, counted the request. *)
Definition after_entry (c : option string) (s : World) : World :=
  {| store := store s;
     metrics := match c with
                | Some c => prometheus.Inc c (metrics s)
                | None => metrics s
                end;
     outbound := outbound s;
     ticks := S (ticks s) |}.

(** The event a [Collect] call of [RPHandler] records when the clock reads
    [now]: the collector's histogram, the inbound method, the inbound
    request URI as the route label, the code, and the milliseconds since
    [start]. *)
Definition event (rt : ResponseTime) (r : http.Request) (code : Z)
    (start now : Z) : prometheus.Observation :=
  {| prometheus.ob_histogram := responseTimeHistogram rt;
     prometheus.ob_method := http.Method r;
     prometheus.ob_route := http.RequestURI r;
     prometheus.ob_code := Itoa code;
     prometheus.ob_value := time.Milliseconds (now - start) |}.

(** A clock that never runs backwards. *)
Definition monotone_clock (env : Env) : Prop :=
  ∀ i j : nat, (i ≤ j)%nat → clock env i ≤ clock env j.

(** The instrument names [LoadGateway] registers for a list of items when
    metrics are on. *)
Definition metric_names (items : list GatewayItem) : gset string :=
  list_to_set
    (flat_map (λ i, [counter_name (Label i); histogram_name (Label i)]) items).


(** ** More sample data *)

Module sample_more.

(** A world in which no outbound request can be built. *)
Definition env_unbuildable : Env :=
  {| clock := λ n, 1000000 * Z.of_nat n;
     NewRequest_err := λ _ _, Some "parse error";
     backend_Do := λ _ _, Ok sample.resp_ok |}.

(** A world in which the backend cannot be reached. *)
Definition env_unreachable : Env :=
  {| clock := λ n, 1000000 * Z.of_nat n;
     NewRequest_err := λ _ _, None;
     backend_Do := λ _ _, Err "connection refused" |}.

(** A world whose clock advances by three milliseconds per reading. *)
Definition env_ticking (resp : http.Response) : Env :=
  {| clock := λ n, 3000000 * Z.of_nat n;
     NewRequest_err := λ _ _, None;
     backend_Do := λ _ _, Ok resp |}.

(** A second item carrying the label of [sample.route_a]. *)
Definition route_c : GatewayItem :=
  {| Frontend := "/c"; Backend := "http://127.0.0.1:9004/";
     MaxReqPerSec := 3; MaxBurst := 2; Label := "a" |}.

(** An item without a frontend path. *)
Definition route_e : GatewayItem :=
  {| Frontend := EmptyString; Backend := "http://127.0.0.1:9005/";
     MaxReqPerSec := 3; MaxBurst := 2; Label := "e" |}.

(** An item declared on the path of the scrape endpoint. *)
Definition route_m : GatewayItem :=
  {| Frontend := "/metrics"; Backend := "http://127.0.0.1:9006/";
     MaxReqPerSec := 3; MaxBurst := 2; Label := "m" |}.

End sample_more.

(** * Properties *)

(** ** The limiter *)

Section limiter.
Import throttled.

Lemma exec_app (st : gmap string Z) (l1 l2 : list Attempt) :
  exec st (l1 ++ l2) = exec (exec st l1) l2.
Proof. revert st. induction l1 as [|a l1 IH]; intros st; simpl; [done|]. apply IH. Qed.

Lemma decisions_app (st : gmap string Z) (l1 l2 : list Attempt) :
  decisions st (l1 ++ l2) = decisions st l1 ++ decisions (exec st l1) l2.
Proof.
  revert st. induction l1 as [|a l1 IH]; intros st; simpl; [done|].
  destruct (attempt st a) as [d st'] eqn:E. simpl. by rewrite IH.
Qed.

Lemma verdicts_app (st : gmap string Z) (l1 l2 : list Attempt) :
  verdicts st (l1 ++ l2) = verdicts st l1 ++ verdicts (exec st l1) l2.
Proof. unfold verdicts. by rewrite decisions_app, fmap_app. Qed.

(** A denial hands the store back as it was. *)
Lemma Admit_deny_store g (st st' : gmap string Z) k now r :
  Admit g st k now = (Deny r, st') → st' = st.
Proof.
  unfold Admit. destruct (_ <? _); intros H; by inversion H.
Qed.





End limiter.

Section burst.
Import throttled.

Variables (g : GCRARateLimiter) (k : string) (B : Z).
Hypothesis HT : 0 < emissionInterval g.
Hypothesis HB : 0 ≤ B.
Hypothesis HD : delayVariationTolerance g = B * emissionInterval g.

Let T := emissionInterval g.

(** The admission test, with the emission interval cancelled. *)
Lemma Admit_verdict (st : gmap string Z) now :
  allowed (Admit g st k now).1 =
    bool_decide (Z.max (default now (st !! k)) now - B * T ≤ now).
Proof.
  unfold Admit. rewrite HD. fold T.
  destruct (Z.ltb_spec now
    (Z.max (default now (st !! k)) now + T - B * T - T)); simpl.
  - rewrite bool_decide_eq_false_2; [done | lia].
  - rewrite bool_decide_eq_true_2; [done | lia].
Qed.

Lemma Admit_allow_store (st : gmap string Z) now :
  Z.max (default now (st !! k)) now - B * T ≤ now →
  allowed (Admit g st k now).1 = true
  ∧ (Admit g st k now).2 !! k = Some (Z.max (default now (st !! k)) now + T).
Proof.
  intros H. split.
  - rewrite Admit_verdict. by apply bool_decide_eq_true_2.
  - unfold Admit. rewrite HD. fold T.
    destruct (Z.ltb_spec now
      (Z.max (default now (st !! k)) now + T - B * T - T)); [lia|].
    simpl. by rewrite lookup_insert_eq.
Qed.

Lemma Admit_deny_same (st : gmap string Z) now :
  now < Z.max (default now (st !! k)) now - B * T →
  allowed (Admit g st k now).1 = false ∧ (Admit g st k now).2 = st.
Proof.
  intros H. split.
  - rewrite Admit_verdict. apply bool_decide_eq_false_2. lia.
  - unfold Admit. rewrite HD. fold T.
    destruct (Z.ltb_spec now
      (Z.max (default now (st !! k)) now + T - B * T - T)); [done|lia].
Qed.

Lemma verdicts_cons (st : gmap string Z) a l :
  verdicts st (a :: l) =
    allowed (attempt st a).1 :: verdicts (attempt st a).2 l.
Proof.
  unfold verdicts. simpl. by destruct (attempt st a).
Qed.

(** While the schedule is at most [B] intervals ahead, requests arriving
    at one instant are admitted, each moving the schedule by one interval. *)
Lemma burst_admitted (now : Z) (n : nat) :
  ∀ (st : gmap string Z) (j : Z),
    0 ≤ j → default now (st !! k) = now + j * T → j + Z.of_nat n ≤ B + 1 →
    verdicts st (replicate n (at_instant g k now)) = replicate n true
    ∧ default now (exec st (replicate n (at_instant g k now)) !! k)
      = now + (j + Z.of_nat n) * T.
Proof.
  induction n as [|n IH]; intros st j Hj Hst Hle.
  - simpl. split; [done|]. rewrite Hst. f_equal. lia.
  - cbn [replicate]. rewrite verdicts_cons. cbn [exec]. unfold attempt. cbn [at_instant at_limiter at_key at_now].
    assert (Hok : Z.max (default now (st !! k)) now - B * T ≤ now).
    { rewrite Hst. nia. }
    destruct (Admit_allow_store st now Hok) as [Hv Hs].
    rewrite Hv.
    destruct (IH (Admit g st k now).2 (j + 1)) as [IH1 IH2].
    + lia.
    + rewrite Hs. simpl. rewrite Hst. nia.
    + lia.
    + split; [by rewrite IH1|]. rewrite IH2. f_equal. lia.
Qed.

(** Once the schedule is more than [B] intervals ahead, requests arriving
    at that instant are rejected and the store stays as it is. *)
Lemma burst_rejected (now : Z) (n : nat) (st : gmap string Z) :
  now < Z.max (default now (st !! k)) now - B * T →
  verdicts st (replicate n (at_instant g k now)) = replicate n false
  ∧ exec st (replicate n (at_instant g k now)) = st.
Proof.
  intros H. induction n as [|n [IH1 IH2]]; [done|].
  cbn [replicate]. rewrite verdicts_cons. cbn [exec]. unfold attempt. cbn [at_instant at_limiter at_key at_now].
  destruct (Admit_deny_same st now H) as [-> ->]. by rewrite IH1, IH2.
Qed.

End burst.

(** ** Loading the gateway *)

Lemma mux_Handle_Done pattern h (mux mux' : gmap string Handler) :
  mux_Handle pattern h mux = Done mux' →
  mux !! pattern = None ∧ mux' = <[pattern := h]> mux.
Proof.
  unfold mux_Handle. destruct (decide _); [done|].
  destruct (mux !! pattern) eqn:E; [done|]. intros [= <-]. done.
Qed.

Lemma NewGCRARateLimiter_Ok quota g :
  throttled.NewGCRARateLimiter quota = Ok g →
  0 < throttled.count (throttled.MaxRate quota) ∧ 0 ≤ throttled.MaxBurst quota.
Proof.
  unfold throttled.NewGCRARateLimiter.
  destruct (Z.leb_spec (throttled.count (throttled.MaxRate quota)) 0); [done|].
  destruct (Z.ltb_spec (throttled.MaxBurst quota) 0); [done|]. intros _. lia.
Qed.

(** One round of the loop of [LoadGateway] that goes through: the limiter
    is built and the route's handler is registered on a free pattern. *)
Lemma LoadGateway_cons mux reg i items metrics mux' reg' :
  LoadGateway mux reg (i :: items) metrics = Done (mux', reg') →
  ∃ g reg1,
    throttled.NewGCRARateLimiter (quota_of i) = Ok g
    ∧ mux !! Frontend i = None
    ∧ LoadGateway (<[Frontend i := route_handler i g metrics]> mux) reg1
        items metrics = Done (mux', reg').
Proof.
  cbn [LoadGateway]. fold (quota_of i).
  destruct (throttled.NewGCRARateLimiter (quota_of i)) as [g|] eqn:Hg; [|done].
  destruct metrics.
  - destruct (prometheus.MustRegister _ reg) as [reg1| |] eqn:H1; [|done..].
    cbn [mbind outcome_bind].
    unfold NewResponseTime.
    destruct (prometheus.MustRegister _ reg1) as [reg2| |] eqn:H2; [|done..].
    cbn [mbind outcome_bind].
    destruct (mux_Handle _ _ mux) as [mux1| |] eqn:H3; [|done..].
    cbn [mbind outcome_bind]. intros HL.
    apply mux_Handle_Done in H3 as [Hfree ->].
    exists g, reg2. done.
  - destruct (mux_Handle _ _ mux) as [mux1| |] eqn:H3; [|done..].
    cbn [mbind outcome_bind]. intros HL.
    apply mux_Handle_Done in H3 as [Hfree ->].
    exists g, reg. done.
Qed.

(** What a completed load guarantees: the frontend paths are pairwise
    distinct and were free, every rate is positive, and the mux holds the
    handler of each item next to what it held before. *)
Lemma LoadGateway_Done items :
  ∀ (mux : gmap string Handler) reg metrics mux' reg',
    LoadGateway mux reg items metrics = Done (mux', reg') →
    NoDup (Frontend <$> items)
    ∧ (∀ i, i ∈ items → mux !! Frontend i = None ∧ 0 < MaxReqPerSec i)
    ∧ (∀ p h, mux' !! p = Some h →
         mux !! p = Some h
         ∨ ∃ i g, i ∈ items ∧ Frontend i = p
                  ∧ throttled.NewGCRARateLimiter (quota_of i) = Ok g
                  ∧ h = route_handler i g metrics).
Proof.
  induction items as [|i items IH]; intros mux reg metrics mux' reg' HL.
  - simpl in HL. injection HL as <- <-. split; [constructor|].
    split; [intros i Hi; by apply elem_of_nil in Hi|]. intros p h Hp. by left.
  - apply LoadGateway_cons in HL as (g & reg1 & Hg & Hfree & HL).
    destruct (IH _ _ _ _ _ HL) as (Hnd & Hitems & Hmux).
    split; [|split].
    + rewrite fmap_cons. constructor; [|done].
      intros Hin. apply list_elem_of_fmap in Hin as (j & Hj & Hjin).
      destruct (Hitems j Hjin) as [Hnone _].
      rewrite <- Hj, lookup_insert_eq in Hnone. done.
    + intros j Hj. apply elem_of_cons in Hj as [->|Hj].
      * split; [done|]. by apply NewGCRARateLimiter_Ok in Hg as [? _].
      * destruct (Hitems j Hj) as [Hnone Hpos]. split; [|done].
        destruct (decide (Frontend i = Frontend j)) as [E|E].
        -- rewrite E, lookup_insert_eq in Hnone. done.
        -- by rewrite lookup_insert_ne in Hnone.
    + intros p h Hp. destruct (Hmux p h Hp) as [Hold|(j & gj & Hj & Hpj & Hgj & Hh)].
      * destruct (decide (Frontend i = p)) as [E|E].
        -- subst p. rewrite lookup_insert_eq in Hold. injection Hold as <-.
           right. exists i, g. split; [by left|done].
        -- rewrite lookup_insert_ne in Hold by done. by left.
      * right. exists j, gj. split; [by right|done].
Qed.

(** ** The forwarding handler and the metrics *)

Lemma counter_value_Inc c m :
  prometheus.counter_value c (prometheus.Inc c m)
  = prometheus.counter_value c m + 1.
Proof.
  unfold prometheus.counter_value at 1. unfold prometheus.Inc. simpl.
  by rewrite lookup_insert_eq.
Qed.

Lemma collect_if_counters env rt r code start s :
  prometheus.counters (metrics (collect_if env rt r code start s))
  = prometheus.counters (metrics s).
Proof. by destruct rt. Qed.

Lemma collect_if_store env rt r code start s :
  store (collect_if env rt r code start s) = store s.
Proof. by destruct rt. Qed.

Lemma RPHandler_store backend c rt env s w r :
  store (RPHandler backend c rt env s w r).1 = store s.
Proof.
  unfold RPHandler. cbn [time_Now].
  destruct (http_NewRequest _ _ _ _) as [req|err]; cbn [fst].
  - cbn [client_Do]. destruct (backend_Do _ _ _) as [resp|err]; cbn [fst].
    + destruct (http.Copy _ _) as [w' [err|]]; cbn [fst];
        rewrite !collect_if_store; by destruct c.
    + rewrite collect_if_store. by destruct c.
  - rewrite collect_if_store. by destruct c.
Qed.


(** The forwarding handler increments the request counter once, on every
    path through it. *)
Lemma RPHandler_counter backend c rt env s w r :
  prometheus.counter_value c
    (metrics (RPHandler backend (Some c) rt env s w r).1)
  = prometheus.counter_value c (metrics s) + 1.
Proof.
  unfold RPHandler, prometheus.counter_value. cbn [time_Now].
  destruct (http_NewRequest _ _ _ _) as [req|err]; cbn [fst].
  - cbn [client_Do]. destruct (backend_Do _ _ _) as [resp|err]; cbn [fst].
    + destruct (http.Copy _ _) as [w' [err|]]; cbn [fst];
        rewrite !collect_if_counters; cbn;
        by rewrite lookup_insert_eq.
    + rewrite collect_if_counters. cbn. by rewrite lookup_insert_eq.
  - rewrite collect_if_counters. cbn. by rewrite lookup_insert_eq.
Qed.

(** What the guarded [Collect] call appends when a collector is set. *)
Lemma observations_collect_if env rt0 r code start s :
  prometheus.observations (metrics (collect_if env (Some rt0) r code start s))
  = prometheus.observations (metrics s)
    ++ [{| prometheus.ob_histogram := responseTimeHistogram rt0;
           prometheus.ob_method := http.Method r;
           prometheus.ob_route := http.RequestURI r;
           prometheus.ob_code := Itoa code;
           prometheus.ob_value :=
             time.Milliseconds (clock env (ticks s) - start) |}].
Proof. reflexivity. Qed.

(** With a collector, the forwarding handler records one event on every
    path but one: when streaming the body fails it records two. *)
Lemma RPHandler_event_count backend c rt0 env s w r :
  length (prometheus.observations
            (metrics (RPHandler backend c (Some rt0) env s w r).1))
  = (length (prometheus.observations (metrics s))
     + match http_NewRequest env (http.Method r) backend (http.Body r) with
       | Err _ => 1
       | Ok req =>
           match backend_Do env (length (outbound s))
                   {| http.cr_Method := http.cr_Method req;
                      http.cr_URL := http.cr_URL req;
                      http.cr_Header :=
                        http.copy_header (http.Header r) (http.cr_Header req);
                      http.cr_Body := http.cr_Body req |} with
           | Err _ => 1
           | Ok resp =>
               match http.resp_BodyErr resp with Some _ => 2 | None => 1 end
           end
       end)%nat.
Proof.
  unfold RPHandler. cbn [time_Now].
  match goal with |- context [collect_if _ _ _ _ _ ?x] => set (s0 := x) end.
  assert (Hm : prometheus.observations (metrics s0)
               = prometheus.observations (metrics s))
    by (unfold s0; by destruct c).
  assert (Ho : outbound s0 = outbound s) by (unfold s0; by destruct c).
  destruct (http_NewRequest _ _ _ _) as [req|err]; cbn [fst].
  - unfold client_Do. rewrite Ho.
    destruct (backend_Do _ _ _) as [resp|err]; cbn [fst].
    + unfold http.Copy. destruct (http.resp_BodyErr resp) as [e|]; cbn [fst];
        rewrite ?observations_collect_if, ?length_app; cbn [metrics];
        rewrite Hm; simpl; lia.
    + rewrite observations_collect_if, length_app. cbn [metrics].
      rewrite Hm. simpl. lia.
  - rewrite observations_collect_if, length_app, Hm. simpl. lia.
Qed.

(** ** Claims about the limiter *)

(** C1, as the spec states it, fails: on the scenario route (rate 2, burst
    1) two requests, that is burst + 1, arriving at one instant on a fresh
    key are both admitted, so the number admitted is not the burst. *)
Lemma burst_plus_one_requests_all_admitted :
  throttled.NewGCRARateLimiter
    {| throttled.MaxRate := throttled.PerSec 2; throttled.MaxBurst := 1 |}
    = Ok sample.limiter_a
  ∧ throttled.verdicts ∅
      (replicate 2 (throttled.at_instant sample.limiter_a "/a" 0))
    = [true; true]
  ∧ length (filter (λ b, b = true)
      (throttled.verdicts ∅
         (replicate 2 (throttled.at_instant sample.limiter_a "/a" 0)))) ≠ 1%nat.
Proof. split; [reflexivity|]. split; [reflexivity|]. vm_compute. lia. Qed.

(** C1, amended: for a route with rate [R] (at most 10^9 per second, so that
    the emission interval is at least a nanosecond) and burst [B], requests
    arriving at one instant on a key with no stored state are admitted
    [B + 1] times and rejected from then on; of the requests arriving one
    emission interval later (anything from one interval up to, not
    including, two), exactly the first is admitted. *)
Theorem burst_conformance (R B : Z) (g : throttled.GCRARateLimiter)
    (k : string) (st : gmap string Z) (t0 wait : Z) (m m' : nat) :
  throttled.NewGCRARateLimiter
    {| throttled.MaxRate := throttled.PerSec R; throttled.MaxBurst := B |} = Ok g →
  R ≤ 1000000000 →
  st !! k = None →
  throttled.emissionInterval g ≤ wait < 2 * throttled.emissionInterval g →
  throttled.verdicts st
    (replicate (Z.to_nat B + 1 + m) (throttled.at_instant g k t0)
     ++ replicate (S m') (throttled.at_instant g k (t0 + wait)))
  = replicate (Z.to_nat B + 1) true ++ replicate m false
    ++ [true] ++ replicate m' false.
Proof.
  intros Hnew HR Hfresh Hwait.
  unfold throttled.NewGCRARateLimiter in Hnew. simpl in Hnew.
  destruct (Z.leb_spec R 0) as [|HR0]; [done|].
  destruct (Z.ltb_spec B 0) as [|HB]; [done|].
  injection Hnew as <-. simpl in Hwait.
  set (T := time.Second `quot` R) in *.
  assert (HT : 0 < T).
  { unfold T, time.Second.
    assert (1 ≤ 1000000000 `quot` R); [|lia].
    apply Z.quot_le_lower_bound; lia. }
  set (g := {| throttled.emissionInterval := T;
               throttled.delayVariationTolerance := B * T |}).
  assert (HD : throttled.delayVariationTolerance g
               = B * throttled.emissionInterval g) by done.
  assert (HT' : 0 < throttled.emissionInterval g) by done.
  set (a0 := throttled.at_instant g k t0).
  set (a1 := throttled.at_instant g k (t0 + wait)).
  set (n := (Z.to_nat B + 1)%nat).
  assert (Hn : Z.of_nat n = B + 1) by (unfold n; lia).
  (* the burst: B + 1 admissions *)
  destruct (burst_admitted g k B HT' HB HD t0 n st 0) as [V1 S1];
    [lia | by rewrite Hfresh; simpl; lia | lia |].
  fold a0 in V1, S1. set (st1 := throttled.exec st (replicate n a0)) in *.
  assert (E1 : st1 !! k = Some (t0 + (B + 1) * T)).
  { destruct (st1 !! k) as [tat|] eqn:E; simpl in S1.
    - f_equal. rewrite S1. f_equal. lia.
    - exfalso. change (throttled.emissionInterval g) with T in S1. nia. }
  (* the rest of the burst: rejections that leave the store alone *)
  destruct (burst_rejected g k B HD t0 m st1) as [V2 S2].
  { rewrite E1. simpl. change (throttled.emissionInterval g) with T. nia. }
  fold a0 in V2, S2.
  (* one interval later: one admission, then rejections *)
  destruct (Admit_allow_store g k B HD st1 (t0 + wait)) as [V3 S3].
  { rewrite E1. simpl. change (throttled.emissionInterval g) with T. nia. }
  set (st2 := (throttled.Admit g st1 k (t0 + wait)).2) in *.
  destruct (burst_rejected g k B HD (t0 + wait) m' st2) as [V4 _].
  { rewrite S3, E1. simpl. change (throttled.emissionInterval g) with T. nia. }
  fold a1 in V4.
  fold n. rewrite replicate_add, <- app_assoc.
  rewrite verdicts_app, V1. fold st1. f_equal.
  rewrite verdicts_app, V2, S2. f_equal.
  cbn [replicate]. rewrite verdicts_cons.
  change (throttled.attempt st1 a1)
    with (throttled.Admit g st1 k (t0 + wait)).
  rewrite V3. fold st2. by rewrite V4.
Qed.

Lemma burst_conformance_witness :
  throttled.NewGCRARateLimiter
    {| throttled.MaxRate := throttled.PerSec 2; throttled.MaxBurst := 1 |}
    = Ok sample.limiter_a
  ∧ 2 ≤ 1000000000
  ∧ (∅ : gmap string Z) !! "/a" = None
  ∧ throttled.emissionInterval sample.limiter_a ≤ 500000000
      < 2 * throttled.emissionInterval sample.limiter_a
  ∧ throttled.verdicts ∅
      (replicate (Z.to_nat 1 + 1 + 1) (throttled.at_instant sample.limiter_a "/a" 0)
       ++ replicate 2 (throttled.at_instant sample.limiter_a "/a" (0 + 500000000)))
    = replicate (Z.to_nat 1 + 1) true ++ replicate 1 false
      ++ [true] ++ replicate 1 false.
Proof.
  assert (H1 : throttled.NewGCRARateLimiter
    {| throttled.MaxRate := throttled.PerSec 2; throttled.MaxBurst := 1 |}
    = Ok sample.limiter_a) by reflexivity.
  assert (H2 : 2 ≤ 1000000000) by lia.
  assert (H3 : (∅ : gmap string Z) !! "/a" = None) by reflexivity.
  assert (H4 : throttled.emissionInterval sample.limiter_a ≤ 500000000
      < 2 * throttled.emissionInterval sample.limiter_a) by (simpl; lia).
  exact (conj H1 (conj H2 (conj H3 (conj H4
    (burst_conformance 2 1 sample.limiter_a "/a" ∅ 0 500000000 1 1 H1 H2 H3 H4))))).
Defined.

(** C2: in every sequence of admission attempts, a rejected attempt leaves
    the store, and with it the theoreticalArrivalTime of its key, as it
    was; retried at once it is rejected again with the same retry delay, and
    every later attempt is decided as if the rejected one had not been made. *)
Theorem rejected_attempt_is_free (st : gmap string Z)
    (pre : list throttled.Attempt) (a : throttled.Attempt) (r : Z) :
  (throttled.attempt (throttled.exec st pre) a).1 = throttled.Deny r →
  throttled.exec st (pre ++ [a]) = throttled.exec st pre
  ∧ throttled.exec st (pre ++ [a]) !! throttled.at_key a
    = throttled.exec st pre !! throttled.at_key a
  ∧ (throttled.attempt (throttled.exec st (pre ++ [a])) a).1 = throttled.Deny r
  ∧ ∀ rest : list throttled.Attempt,
      throttled.decisions (throttled.exec st (pre ++ [a])) rest
      = throttled.decisions (throttled.exec st pre) rest
      ∧ throttled.exec st (pre ++ a :: rest) = throttled.exec st (pre ++ rest).
Proof.
  intros Hd.
  assert (E : throttled.exec st (pre ++ [a]) = throttled.exec st pre).
  { rewrite exec_app. simpl.
    destruct (throttled.attempt (throttled.exec st pre) a) as [d st'] eqn:Ha.
    simpl in *. subst d. unfold throttled.attempt in Ha.
    by apply Admit_deny_store in Ha. }
  split; [done|]. split; [by rewrite E|]. split; [by rewrite E|].
  intros rest. split; [by rewrite E|].
  change (a :: rest) with ([a] ++ rest).
  by rewrite app_assoc, (exec_app _ (pre ++ [a])), E, <- exec_app.
Qed.

Lemma rejected_attempt_is_free_witness :
  let a := throttled.at_instant sample.limiter_a "/a" 0 in
  (throttled.attempt (throttled.exec ∅ [a; a]) a).1 = throttled.Deny 500000000
  ∧ throttled.exec ∅ ([a; a] ++ [a]) = throttled.exec ∅ [a; a].
Proof.
  intros a.
  assert (H : (throttled.attempt (throttled.exec ∅ [a; a]) a).1
              = throttled.Deny 500000000) by reflexivity.
  exact (conj H (proj1 (rejected_attempt_is_free ∅ [a; a] a 500000000 H))).
Defined.



(** ** Claims about the forwarding handler *)

(** Loading [route_b] alone, with metrics on. *)
Lemma LoadGateway_route_b :
  LoadGateway ∅ ∅ [sample.route_b] true = Done (sample.mux_b, sample.registry_b).
Proof. reflexivity. Qed.

Lemma mux_b_lookup : sample.mux_b !! "/b" = Some sample.handler_b.
Proof. reflexivity. Qed.

(** C4, as the spec states it, fails: with metrics on, the second of two
    requests arriving at one instant on a loaded route without burst is
    denied (status 429) and the route's counter stays at 1. *)
Lemma denied_request_is_not_counted :
  LoadGateway ∅ ∅ [sample.route_b] true = Done (sample.mux_b, sample.registry_b)
  ∧ sample.mux_b !! "/b" = Some sample.handler_b
  ∧ let env := sample.env_of sample.resp_ok in
    let h := sample.handler_b in
    let s1 := (h env new_world http.new_writer (sample.get "/b")).1 in
    let '(s2, w2) := h env s1 http.new_writer (sample.get "/b") in
    prometheus.counter_value "b_requests_total" (metrics s1) = 1
    ∧ http.final_status w2 = 429
    ∧ prometheus.counter_value "b_requests_total" (metrics s2) = 1
    ∧ prometheus.counter_value "b_requests_total" (metrics s2)
      ≠ prometheus.counter_value "b_requests_total" (metrics s1) + 1.
Proof.
  split; [exact LoadGateway_route_b|]. split; [exact mux_b_lookup|].
  vm_compute.
  split; [reflexivity|]. split; [reflexivity|]. split; [reflexivity|].
  discriminate.
Qed.

(** C4, amended: with metrics on, every request served by a loaded route
    increments the route's request counter exactly once when the limiter
    admits it; a request the limiter denies does not reach the forwarding
    handler, and the counter stays as it was. *)
Theorem request_counter_counts_admitted (items : list GatewayItem)
    (mux : gmap string Handler) (reg : gset string) (p : string) (h : Handler)
    (env : Env) (s : World) (w : http.ResponseWriter) (r : http.Request) :
  LoadGateway ∅ ∅ items true = Done (mux, reg) →
  mux !! p = Some h →
  ∃ i g,
    i ∈ items ∧ Frontend i = p
    ∧ throttled.NewGCRARateLimiter (quota_of i) = Ok g
    ∧ prometheus.counter_value (counter_name (Label i))
        (metrics (h env s w r).1)
      = prometheus.counter_value (counter_name (Label i)) (metrics s)
        + (if throttled.allowed
                (throttled.Admit g (store s) (http.URLPath r)
                   (clock env (ticks s))).1
           then 1 else 0).
Proof.
  intros HL Hp.
  destruct (LoadGateway_Done _ _ _ _ _ _ HL) as (_ & _ & Hmux).
  destruct (Hmux p h Hp) as [Hold|(i & g & Hi & Hpi & Hg & ->)].
  { by rewrite lookup_empty in Hold. }
  exists i, g. do 3 (split; [done|]).
  unfold route_handler, RateLimit. cbn [Key VaryBy_ Path RateLimiter time_Now store].
  destruct (throttled.Admit g (store s) (http.URLPath r) (clock env (ticks s)))
    as [[rem reset|retry] st] eqn:Ha; cbn [fst throttled.allowed].
  - rewrite RPHandler_counter. done.
  - cbn. lia.
Qed.

Lemma request_counter_counts_admitted_witness :
  LoadGateway ∅ ∅ [sample.route_b] true = Done (sample.mux_b, sample.registry_b)
  ∧ sample.mux_b !! "/b" = Some sample.handler_b
  ∧ ∃ i g,
      i ∈ [sample.route_b] ∧ Frontend i = "/b"
      ∧ throttled.NewGCRARateLimiter (quota_of i) = Ok g
      ∧ prometheus.counter_value (counter_name (Label i))
          (metrics (sample.handler_b (sample.env_of sample.resp_ok) new_world
                      http.new_writer (sample.get "/b")).1)
        = prometheus.counter_value (counter_name (Label i)) (metrics new_world)
          + (if throttled.allowed
                  (throttled.Admit g (store new_world)
                     (http.URLPath (sample.get "/b"))
                     (clock (sample.env_of sample.resp_ok) (ticks new_world))).1
             then 1 else 0).
Proof.
  assert (H1 : LoadGateway ∅ ∅ [sample.route_b] true
               = Done (sample.mux_b, sample.registry_b))
    by reflexivity.
  assert (H2 : sample.mux_b !! "/b" = Some sample.handler_b)
    by reflexivity.
  exact (conj H1 (conj H2
    (request_counter_counts_admitted [sample.route_b] sample.mux_b
       sample.registry_b "/b" sample.handler_b
       (sample.env_of sample.resp_ok) new_world http.new_writer
       (sample.get "/b") H1 H2))).
Defined.

(** C5: the claim holds on the failure paths before the response starts, and
    the code departs from it on a backend response whose status is not 200:
    the caller receives the backend's 404 and the one metric event recorded
    carries the code 200. *)
Theorem metric_code_on_backend_404 :
  let '(s, w) :=
    RPHandler (Backend sample.route_a) None (Some sample.collector_a)
      (sample.env_of sample.resp_not_found) new_world http.new_writer
      (sample.get "/a") in
  http.final_status w = 404
  ∧ prometheus.ob_code <$> prometheus.observations (metrics s) = ["200"]
  ∧ prometheus.ob_code <$> prometheus.observations (metrics s)
    ≠ [Itoa (http.final_status w)].
Proof. vm_compute. split; [reflexivity|]. split; [reflexivity|]. discriminate. Qed.

(** C6: the code departs from the claim when streaming the backend body
    fails: the handler records an event with code 500 and, going on past
    the failure branch, a second event with code 200; the caller has
    already received the backend's status line. *)
Theorem two_metric_events_on_streaming_failure :
  let '(s, w) :=
    RPHandler (Backend sample.route_a) None (Some sample.collector_a)
      (sample.env_of sample.resp_broken) new_world http.new_writer
      (sample.get "/a") in
  prometheus.ob_code <$> prometheus.observations (metrics s) = ["500"; "200"]
  ∧ length (prometheus.observations (metrics s)) = 2%nat
  ∧ http.final_status w = 200.
Proof. vm_compute. split; [reflexivity|]. split; reflexivity. Qed.






(** ** Start-up *)

(** C8, as the spec states it, fails: with two items declared on the path
    /a, loading does not complete; the second registration panics. *)
Lemma duplicate_frontend_panics :
  LoadGateway ∅ ∅ [sample.route_a; sample.route_a'] false
  = Panic "http: multiple registrations for /a"
  ∧ completes (LoadGateway ∅ ∅ [sample.route_a; sample.route_a'] false) = false.
Proof. split; vm_compute; reflexivity. Qed.

(** C8, amended: for every route list with two entries on the same
    frontendPath, gateway loading does not complete: start-up ends at the
    second registration of the path, with a panic, if it did not end
    before; no route comes to serve the path. *)
Theorem duplicate_frontend_stops_loading (mux : gmap string Handler)
    (reg : gset string) (items : list GatewayItem) (metrics : bool)
    (a b : nat) (i j : GatewayItem) :
  items !! a = Some i → items !! b = Some j → a ≠ b →
  Frontend i = Frontend j →
  completes (LoadGateway mux reg items metrics) = false.
Proof.
  intros Ha Hb Hab Hf.
  destruct (LoadGateway mux reg items metrics) as [[mux' reg']| |] eqn:HL;
    [|done..].
  exfalso. apply LoadGateway_Done in HL as (Hnd & _ & _).
  apply Hab. eapply NoDup_lookup; [exact Hnd| |].
  - rewrite list_lookup_fmap, Ha. reflexivity.
  - rewrite list_lookup_fmap, Hb. simpl. by rewrite Hf.
Qed.

Lemma duplicate_frontend_stops_loading_witness :
  [sample.route_a; sample.route_a'] !! 0%nat = Some sample.route_a
  ∧ [sample.route_a; sample.route_a'] !! 1%nat = Some sample.route_a'
  ∧ 0%nat ≠ 1%nat
  ∧ Frontend sample.route_a = Frontend sample.route_a'
  ∧ completes (LoadGateway ∅ ∅ [sample.route_a; sample.route_a'] true) = false.
Proof.
  assert (H1 : [sample.route_a; sample.route_a'] !! 0%nat = Some sample.route_a)
    by reflexivity.
  assert (H2 : [sample.route_a; sample.route_a'] !! 1%nat = Some sample.route_a')
    by reflexivity.
  assert (H3 : 0%nat ≠ 1%nat) by lia.
  assert (H4 : Frontend sample.route_a = Frontend sample.route_a')
    by reflexivity.
  exact (conj H1 (conj H2 (conj H3 (conj H4
    (duplicate_frontend_stops_loading ∅ ∅ _ true 0 1 _ _ H1 H2 H3 H4))))).
Defined.

Lemma LoadGateway_bad_rate items :
  ∀ (mux : gmap string Handler) reg metrics i,
    i ∈ items → MaxReqPerSec i ≤ 0 →
    completes (LoadGateway mux reg items metrics) = false.
Proof.
  intros mux reg metrics i Hi Hr.
  destruct (LoadGateway mux reg items metrics) as [[mux' reg']| |] eqn:HL;
    [|done..].
  apply LoadGateway_Done in HL as (_ & Hitems & _).
  destruct (Hitems i Hi) as [_ Hpos]. lia.
Qed.

(** C9: a route whose ratePerSecond is zero or negative is refused when its
    limiter is constructed: the constructor returns the error, [LoadGateway]
    turns it into a fatal exit as soon as it reaches the item, and whatever
    the other routes are the process never gets to serve; admission itself
    has no error outcome. *)
Theorem nonpositive_rate_refuses_start (config : Configuration)
    (i : GatewayItem) (data : string)
    (Unmarshal : string → result Configuration) :
  i ∈ Routes config → MaxReqPerSec i ≤ 0 →
  Unmarshal data = Ok config →
  throttled.NewGCRARateLimiter (quota_of i)
    = Err "invalid RateQuota: MaxRate must be greater than zero"
  ∧ (∀ mux reg rest metrics,
       LoadGateway mux reg (i :: rest) metrics
       = Fatal "invalid RateQuota: MaxRate must be greater than zero")
  ∧ (∀ mux reg metrics,
       completes (LoadGateway mux reg (Routes config) metrics) = false)
  ∧ completes (start config) = false
  ∧ completes (main (Ok data) Unmarshal) = false.
Proof.
  intros Hi Hr Hu.
  assert (Hnew : throttled.NewGCRARateLimiter (quota_of i)
    = Err "invalid RateQuota: MaxRate must be greater than zero").
  { unfold throttled.NewGCRARateLimiter, quota_of. simpl.
    destruct (Z.leb_spec (MaxReqPerSec i) 0); [done|lia]. }
  assert (Hload : ∀ mux reg metrics,
       completes (LoadGateway mux reg (Routes config) metrics) = false).
  { intros. by eapply LoadGateway_bad_rate. }
  assert (Hstart : completes (start config) = false).
  { unfold start. simpl.
    specialize (Hload ∅ ∅ (Metrics config)).
    destruct (LoadGateway ∅ ∅ (Routes config) (Metrics config))
      as [[mux' reg']| |]; done. }
  split; [done|]. split.
  { intros. cbn [LoadGateway]. fold (quota_of i). by rewrite Hnew. }
  split; [done|]. split; [done|].
  unfold main. by rewrite Hu.
Qed.

Lemma nonpositive_rate_refuses_start_witness :
  let config := {| Routes := [sample.route_a; sample.route_z];
                   Metrics := false; Port := "8080" |} in
  sample.route_z ∈ Routes config
  ∧ MaxReqPerSec sample.route_z ≤ 0
  ∧ completes (main (Ok "routes") (λ _, Ok config)) = false.
Proof.
  intros config.
  assert (H1 : sample.route_z ∈ Routes config)
    by (apply elem_of_cons; right; apply elem_of_cons; by left).
  assert (H2 : MaxReqPerSec sample.route_z ≤ 0) by (simpl; lia).
  assert (H3 : (λ _ : string, Ok config) "routes" = Ok config) by reflexivity.
  exact (conj H1 (conj H2
    (proj2 (proj2 (proj2 (proj2
      (nonpositive_rate_refuses_start config sample.route_z "routes"
         (λ _, Ok config) H1 H2 H3))))))).
Defined.

(** C10: whatever the configuration, a process that gets to serve listens
    on the address 127.0.0.1 followed by a colon and the configured port,
    with a read and a write timeout of 15 seconds; neither the address nor
    the timeouts come from the configuration. *)
Theorem server_binds_loopback (readFile : result string)
    (Unmarshal : string → result Configuration) (srv : Server) :
  main readFile Unmarshal = Done srv →
  ∃ data config,
    readFile = Ok data ∧ Unmarshal data = Ok config
    ∧ Addr srv = "127.0.0.1:" +:+ Port config
    ∧ WriteTimeout srv = 15 * time.Second
    ∧ ReadTimeout srv = 15 * time.Second
    ∧ WriteTimeout srv = 15000000000
    ∧ ReadTimeout srv = 15000000000.
Proof.
  unfold main. destruct readFile as [data|err]; [|done].
  destruct (Unmarshal data) as [config|err] eqn:Hu; [|done].
  unfold start. simpl.
  destruct (LoadGateway ∅ ∅ (Routes config) (Metrics config))
    as [[mux reg]| |]; [|done..].
  cbn [mbind outcome_bind].
  destruct (if Metrics config then mux_Handle "/metrics" promhttp_Handler mux
            else Done mux) as [mux'| |]; [|done..].
  cbn [mbind outcome_bind]. intros [= <-].
  exists data, config. simpl. done.
Qed.

Lemma server_binds_loopback_witness :
  main (Ok "routes") (λ _, Ok sample.config_a) = Done sample.server_a
  ∧ ∃ data config,
      Ok "routes" = Ok data
      ∧ (λ _ : string, Ok sample.config_a) data = Ok config
      ∧ Addr sample.server_a = "127.0.0.1:" +:+ Port config
      ∧ WriteTimeout sample.server_a = 15 * time.Second
      ∧ ReadTimeout sample.server_a = 15 * time.Second
      ∧ WriteTimeout sample.server_a = 15000000000
      ∧ ReadTimeout sample.server_a = 15000000000.
Proof.
  assert (H : main (Ok "routes") (λ _, Ok sample.config_a)
              = Done sample.server_a) by reflexivity.
  exact (conj H (server_binds_loopback (Ok "routes")
                   (λ _, Ok sample.config_a) sample.server_a H)).
Defined.

(** * Further properties of the code *)

(** ** The forwarding handler, path by path *)

Lemma after_entry_outbound c s : outbound (after_entry c s) = outbound s.
Proof. done. Qed.

(** [RPHandler] laid out by the three calls whose results decide its path. *)
Lemma RPHandler_paths backend c rt env s w r :
  RPHandler backend c rt env s w r =
  let start := clock env (ticks s) in
  let s0 := after_entry c s in
  match NewRequest_err env (http.Method r) backend with
  | Some err =>
      (collect_if env rt r http.StatusInternalServerError start s0,
       http.Error err http.StatusInternalServerError w)
  | None =>
      let req := outbound_request backend r in
      let s1 := (client_Do env req s0).2 in
      match backend_Do env (length (outbound s)) req with
      | Err err =>
          (collect_if env rt r http.StatusInternalServerError start s1,
           http.Error err http.StatusInternalServerError w)
      | Ok resp =>
          let w1 := http.WriteHeader (http.resp_StatusCode resp)
                      {| http.rw_header :=
                           http.resp_Header resp ∪ http.rw_header w;
                         http.rw_sent := http.rw_sent w;
                         http.rw_body := http.rw_body w |} in
          let w2 := (http.Copy resp w1).1 in
          match http.resp_BodyErr resp with
          | Some err =>
              (collect_if env rt r http.StatusOK start
                 (collect_if env rt r http.StatusInternalServerError start s1),
               http.Error err http.StatusInternalServerError w2)
          | None => (collect_if env rt r http.StatusOK start s1, w2)
          end
      end
  end.
Proof.
  unfold RPHandler, http_NewRequest. cbn [time_Now].
  assert (E : match c with
              | Some c0 => set_metrics (prometheus.Inc c0 (metrics
                  {| store := store s; metrics := metrics s;
                     outbound := outbound s; ticks := S (ticks s) |}))
                  {| store := store s; metrics := metrics s;
                     outbound := outbound s; ticks := S (ticks s) |}
              | None => {| store := store s; metrics := metrics s;
                           outbound := outbound s; ticks := S (ticks s) |}
              end = after_entry c s) by (by destruct c).
  rewrite E. clear E.
  destruct (NewRequest_err env (http.Method r) backend) as [err|]; [done|].
  cbn [http.cr_Method http.cr_URL http.cr_Header http.cr_Body].
  unfold http.copy_header. rewrite (right_id_L ∅ (∪) (http.Header r)).
  fold (outbound_request backend r).
  unfold client_Do at 1. rewrite after_entry_outbound.
  destruct (backend_Do env (length (outbound s)) (outbound_request backend r))
    as [resp|err]; [|done].
  unfold http.Copy. cbn [fst snd].
  by destruct (http.resp_BodyErr resp).
Qed.

Lemma Error_fresh msg code (w : http.ResponseWriter) :
  http.rw_sent w = None →
  http.final_status (http.Error msg code w) = code
  ∧ http.rw_body (http.Error msg code w)
    = http.rw_body w +:+ (msg +:+ http.newline).
Proof.
  destruct w as [h sent b]. cbn [http.rw_sent http.rw_body]. by intros ->.
Qed.


Lemma collect_if_outbound env rt r code start s :
  outbound (collect_if env rt r code start s) = outbound s.
Proof. by destruct rt. Qed.

Lemma RPHandler_outbound_log (backend : string) (c : option string)
    (rt : option ResponseTime) (env : Env) (s : World)
    (w : http.ResponseWriter) (r : http.Request) :
  outbound (RPHandler backend c rt env s w r).1
  = outbound s
    ++ match NewRequest_err env (http.Method r) backend with
       | Some _ => []
       | None => [outbound_request backend r]
       end.
Proof.
  rewrite RPHandler_paths. cbn zeta.
  destruct (NewRequest_err env (http.Method r) backend) as [err|].
  - cbn [fst]. rewrite collect_if_outbound, after_entry_outbound.
    by rewrite app_nil_r.
  - destruct (backend_Do _ _ _) as [resp|err].
    + destruct (http.resp_BodyErr resp); cbn [fst];
        by rewrite !collect_if_outbound.
    + cbn [fst]. by rewrite collect_if_outbound.
Qed.

(** X1. The log of outbound calls after the handler ran: nothing is added when
    the outbound request cannot be built, and otherwise exactly one call,
    the inbound method, headers and body sent to the configured backend
    URL; a failed call is not repeated. *)
Theorem RPHandler_outbound_calls (backend : string) (c : option string)
    (rt : option ResponseTime) (env : Env) (s : World)
    (w : http.ResponseWriter) (r : http.Request) :
  outbound (RPHandler backend c rt env s w r).1
  = outbound s
    ++ match NewRequest_err env (http.Method r) backend with
       | Some _ => []
       | None => [outbound_request backend r]
       end.
Proof. apply RPHandler_outbound_log. Qed.

(** X2. When the outbound request cannot be built, the caller gets status 500
    with the error message and a newline as the body, and no outbound call
    is made. *)
Theorem RPHandler_construction_failure (backend : string) (c : option string)
    (rt : option ResponseTime) (env : Env) (s : World)
    (w : http.ResponseWriter) (r : http.Request) (err : string) :
  NewRequest_err env (http.Method r) backend = Some err →
  http.rw_sent w = None →
  http.final_status (RPHandler backend c rt env s w r).2
    = http.StatusInternalServerError
  ∧ http.rw_body (RPHandler backend c rt env s w r).2
    = http.rw_body w +:+ (err +:+ http.newline)
  ∧ outbound (RPHandler backend c rt env s w r).1 = outbound s.
Proof.
  intros Hnew Hs. rewrite RPHandler_outbound_log, RPHandler_paths.
  cbn zeta. rewrite Hnew. cbn [snd].
  destruct (Error_fresh err http.StatusInternalServerError w Hs) as [-> ->].
  by rewrite app_nil_r.
Qed.

Lemma RPHandler_construction_failure_witness :
  NewRequest_err sample_more.env_unbuildable
    (http.Method (sample.get "/a")) (Backend sample.route_a)
    = Some "parse error"
  ∧ http.rw_sent http.new_writer = None
  ∧ http.final_status
      (RPHandler (Backend sample.route_a) None None
         sample_more.env_unbuildable new_world http.new_writer
         (sample.get "/a")).2
    = http.StatusInternalServerError.
Proof.
  assert (H1 : NewRequest_err sample_more.env_unbuildable
    (http.Method (sample.get "/a")) (Backend sample.route_a)
    = Some "parse error") by reflexivity.
  assert (H2 : http.rw_sent http.new_writer = None) by reflexivity.
  exact (conj H1 (conj H2 (proj1
    (RPHandler_construction_failure (Backend sample.route_a) None None
       sample_more.env_unbuildable new_world http.new_writer
       (sample.get "/a") "parse error" H1 H2)))).
Defined.

(** X3. When the backend call fails, the caller gets status 500 with the
    error message and a newline as the body; the one call made is logged. *)
Theorem RPHandler_transport_failure (backend : string) (c : option string)
    (rt : option ResponseTime) (env : Env) (s : World)
    (w : http.ResponseWriter) (r : http.Request) (err : string) :
  NewRequest_err env (http.Method r) backend = None →
  backend_Do env (length (outbound s)) (outbound_request backend r) = Err err →
  http.rw_sent w = None →
  http.final_status (RPHandler backend c rt env s w r).2
    = http.StatusInternalServerError
  ∧ http.rw_body (RPHandler backend c rt env s w r).2
    = http.rw_body w +:+ (err +:+ http.newline)
  ∧ outbound (RPHandler backend c rt env s w r).1
    = outbound s ++ [outbound_request backend r].
Proof.
  intros Hnew Hdo Hs. rewrite RPHandler_outbound_log, RPHandler_paths.
  cbn zeta. rewrite Hnew, Hdo. cbn [snd].
  by destruct (Error_fresh err http.StatusInternalServerError w Hs) as [-> ->].
Qed.

Lemma RPHandler_transport_failure_witness :
  NewRequest_err sample_more.env_unreachable
    (http.Method (sample.get "/a")) (Backend sample.route_a) = None
  ∧ backend_Do sample_more.env_unreachable (length (outbound new_world))
      (outbound_request (Backend sample.route_a) (sample.get "/a"))
    = Err "connection refused"
  ∧ http.rw_sent http.new_writer = None
  ∧ http.final_status
      (RPHandler (Backend sample.route_a) None None
         sample_more.env_unreachable new_world http.new_writer
         (sample.get "/a")).2
    = http.StatusInternalServerError.
Proof.
  assert (H1 : NewRequest_err sample_more.env_unreachable
    (http.Method (sample.get "/a")) (Backend sample.route_a) = None)
    by reflexivity.
  assert (H2 : backend_Do sample_more.env_unreachable
      (length (outbound new_world))
      (outbound_request (Backend sample.route_a) (sample.get "/a"))
    = Err "connection refused") by reflexivity.
  assert (H3 : http.rw_sent http.new_writer = None) by reflexivity.
  exact (conj H1 (conj H2 (conj H3 (proj1
    (RPHandler_transport_failure (Backend sample.route_a) None None
       sample_more.env_unreachable new_world http.new_writer
       (sample.get "/a") "connection refused" H1 H2 H3))))).
Defined.



(** ** The forwarding handler and its instruments *)

Lemma Milliseconds_nonneg (d : Z) : 0 ≤ d → 0 ≤ time.Milliseconds d.
Proof. intros H. unfold time.Milliseconds, time.Millisecond. by apply Z.quot_pos. Qed.

(** The shape of what a handler with a collector records: the events are
    appended, each carries the collector's histogram, the inbound method and
    request URI and the code 200 or 500, and its value is the milliseconds
    between the first clock reading and a later one. *)
Lemma RPHandler_events_shape backend c rt0 env s w r :
  ∃ new,
    prometheus.observations
      (metrics (RPHandler backend c (Some rt0) env s w r).1)
    = prometheus.observations (metrics s) ++ new
    ∧ Forall (λ o, ∃ code k,
                o = event rt0 r code (clock env (ticks s)) (clock env k)
                ∧ (code = http.StatusOK ∨ code = http.StatusInternalServerError)
                ∧ (ticks s < k)%nat) new.
Proof.
  assert (H0 : prometheus.observations (metrics (after_entry c s))
               = prometheus.observations (metrics s)) by (by destruct c).
  rewrite RPHandler_paths. cbn zeta.
  destruct (NewRequest_err env (http.Method r) backend) as [err|].
  - eexists [_]. cbn [fst]. rewrite observations_collect_if, H0.
    split; [reflexivity|]. constructor; [|constructor].
    exists http.StatusInternalServerError, (S (ticks s)).
    split; [reflexivity|]. split; [by right|]. lia.
  - destruct (backend_Do _ _ _) as [resp|err].
    + destruct (http.resp_BodyErr resp) as [e|]; cbn [fst].
      * eexists [_; _]. rewrite !observations_collect_if. cbn [client_Do snd metrics].
        rewrite H0, <- app_assoc. split; [reflexivity|].
        constructor; [|constructor; [|constructor]].
        -- exists http.StatusInternalServerError, (S (ticks s)).
           split; [reflexivity|]. split; [by right|]. lia.
        -- exists http.StatusOK, (S (S (ticks s))).
           split; [reflexivity|]. split; [by left|]. lia.
      * eexists [_]. rewrite observations_collect_if. cbn [client_Do snd metrics].
        rewrite H0. split; [reflexivity|]. constructor; [|constructor].
        exists http.StatusOK, (S (ticks s)).
        split; [reflexivity|]. split; [by left|]. lia.
    + eexists [_]. cbn [fst]. rewrite observations_collect_if.
      cbn [client_Do snd metrics]. rewrite H0.
      split; [reflexivity|]. constructor; [|constructor].
      exists http.StatusInternalServerError, (S (ticks s)).
      split; [reflexivity|]. split; [by right|]. lia.
Qed.

(** X5. With a collector, the handler records exactly one event on every
    path but one: when streaming the backend body fails it records two. *)
Theorem RPHandler_records_one_or_two_events (backend : string)
    (c : option string) (rt0 : ResponseTime) (env : Env) (s : World)
    (w : http.ResponseWriter) (r : http.Request) :
  length (prometheus.observations
            (metrics (RPHandler backend c (Some rt0) env s w r).1))
  = (length (prometheus.observations (metrics s))
     + match NewRequest_err env (http.Method r) backend with
       | Some _ => 1
       | None =>
           match backend_Do env (length (outbound s))
                   (outbound_request backend r) with
           | Err _ => 1
           | Ok resp =>
               match http.resp_BodyErr resp with Some _ => 2 | None => 1 end
           end
       end)%nat.
Proof.
  destruct (RPHandler_events_shape backend c rt0 env s w r) as (new & E & _).
  revert E. rewrite RPHandler_paths. cbn zeta.
  assert (H0 : prometheus.observations (metrics (after_entry c s))
               = prometheus.observations (metrics s)) by (by destruct c).
  destruct (NewRequest_err env (http.Method r) backend) as [err|].
  - intros _. cbn [fst]. rewrite observations_collect_if, length_app, H0.
    simpl. lia.
  - destruct (backend_Do _ _ _) as [resp|err].
    + destruct (http.resp_BodyErr resp) as [e|]; intros _; cbn [fst];
        rewrite !observations_collect_if, !length_app;
        cbn [client_Do snd metrics]; rewrite H0; simpl; lia.
    + intros _. cbn [fst]. rewrite observations_collect_if, length_app.
      cbn [client_Do snd metrics]. rewrite H0. simpl. lia.
Qed.

(** X6. A handler with a collector only appends to the recorded observations,
    and every event it appends is labelled with the collector's histogram,
    the inbound method, the inbound request URI (not the route's frontend
    path) and the code 200 or 500, whatever status the caller received. *)
Theorem RPHandler_event_labels (backend : string) (c : option string)
    (rt0 : ResponseTime) (env : Env) (s : World) (w : http.ResponseWriter)
    (r : http.Request) :
  ∃ new,
    prometheus.observations
      (metrics (RPHandler backend c (Some rt0) env s w r).1)
    = prometheus.observations (metrics s) ++ new
    ∧ Forall (λ o, prometheus.ob_histogram o = responseTimeHistogram rt0
                   ∧ prometheus.ob_method o = http.Method r
                   ∧ prometheus.ob_route o = http.RequestURI r
                   ∧ (prometheus.ob_code o = "200"
                      ∨ prometheus.ob_code o = "500")) new.
Proof.
  destruct (RPHandler_events_shape backend c rt0 env s w r) as (new & E & F).
  exists new. split; [done|]. eapply Forall_impl; [exact F|].
  intros o (code & k & -> & [-> | ->] & _); cbn; repeat split; auto.
Qed.

(** X7. With a clock that never runs backwards, every latency a handler
    records is non-negative. *)
Theorem RPHandler_latency_nonneg (backend : string) (c : option string)
    (rt0 : ResponseTime) (env : Env) (s : World) (w : http.ResponseWriter)
    (r : http.Request) :
  monotone_clock env →
  Forall (λ o, 0 ≤ prometheus.ob_value o) (prometheus.observations (metrics s)) →
  Forall (λ o, 0 ≤ prometheus.ob_value o)
    (prometheus.observations
       (metrics (RPHandler backend c (Some rt0) env s w r).1)).
Proof.
  intros Hmono Hold.
  destruct (RPHandler_events_shape backend c rt0 env s w r) as (new & -> & F).
  apply Forall_app. split; [done|]. eapply Forall_impl; [exact F|].
  intros o (code & k & -> & _ & Hk). cbn [event prometheus.ob_value].
  apply Milliseconds_nonneg. specialize (Hmono (ticks s) k). lia.
Qed.

Lemma RPHandler_latency_nonneg_witness :
  monotone_clock (sample_more.env_ticking sample.resp_ok)
  ∧ Forall (λ o, 0 ≤ prometheus.ob_value o)
      (prometheus.observations (metrics new_world))
  ∧ Forall (λ o, 0 ≤ prometheus.ob_value o)
      (prometheus.observations
         (metrics (RPHandler (Backend sample.route_a) None
                     (Some sample.collector_a)
                     (sample_more.env_ticking sample.resp_ok) new_world
                     http.new_writer (sample.get "/a")).1)).
Proof.
  assert (H1 : monotone_clock (sample_more.env_ticking sample.resp_ok))
    by (intros i j Hij; simpl; lia).
  assert (H2 : Forall (λ o, 0 ≤ prometheus.ob_value o)
      (prometheus.observations (metrics new_world))) by constructor.
  exact (conj H1 (conj H2
    (RPHandler_latency_nonneg (Backend sample.route_a) None
       sample.collector_a (sample_more.env_ticking sample.resp_ok) new_world
       http.new_writer (sample.get "/a") H1 H2))).
Defined.

(** X8. The counters after the handler ran: with a request counter, that
    counter is one higher and every other counter is as before, on every
    path; without one, no counter changes. *)
Theorem RPHandler_counters (backend : string) (c : option string)
    (rt : option ResponseTime) (env : Env) (s : World)
    (w : http.ResponseWriter) (r : http.Request) :
  prometheus.counters (metrics (RPHandler backend c rt env s w r).1)
  = match c with
    | Some c0 =>
        <[c0 := prometheus.counter_value c0 (metrics s) + 1]>
          (prometheus.counters (metrics s))
    | None => prometheus.counters (metrics s)
    end.
Proof.
  assert (H0 : prometheus.counters (metrics (after_entry c s))
               = match c with
                 | Some c0 =>
                     <[c0 := prometheus.counter_value c0 (metrics s) + 1]>
                       (prometheus.counters (metrics s))
                 | None => prometheus.counters (metrics s)
                 end) by (by destruct c).
  rewrite RPHandler_paths. cbn zeta.
  destruct (NewRequest_err env (http.Method r) backend) as [err|].
  - cbn [fst]. by rewrite collect_if_counters.
  - destruct (backend_Do _ _ _) as [resp|err].
    + destruct (http.resp_BodyErr resp); cbn [fst];
        by rewrite !collect_if_counters.
    + cbn [fst]. by rewrite collect_if_counters.
Qed.

(** X9. What the caller and the backend see does not depend on the instruments:
    the response written and the outbound calls are the same with and
    without a counter and a collector. Without them the handler leaves the
    metrics as they are; in every case it leaves the limiter store alone. *)
Theorem RPHandler_instruments_unobservable (backend : string)
    (c : option string) (rt : option ResponseTime) (env : Env) (s : World)
    (w : http.ResponseWriter) (r : http.Request) :
  (RPHandler backend c rt env s w r).2 = (RPHandler backend None None env s w r).2
  ∧ outbound (RPHandler backend c rt env s w r).1
    = outbound (RPHandler backend None None env s w r).1
  ∧ metrics (RPHandler backend None None env s w r).1 = metrics s
  ∧ store (RPHandler backend c rt env s w r).1 = store s.
Proof.
  split; [|split; [|split]].
  - rewrite !RPHandler_paths. cbn zeta.
    destruct (NewRequest_err env (http.Method r) backend) as [err|]; [done|].
    destruct (backend_Do _ _ _) as [resp|err]; [|done].
    by destruct (http.resp_BodyErr resp).
  - by rewrite !RPHandler_outbound_log.
  - rewrite RPHandler_paths. cbn zeta.
    destruct (NewRequest_err env (http.Method r) backend) as [err|]; [done|].
    destruct (backend_Do _ _ _) as [resp|err]; [|done].
    by destruct (http.resp_BodyErr resp).
  - apply RPHandler_store.
Qed.

(** ** Loading, step by step *)

Lemma MustRegister_Done name (reg reg' : gset string) :
  prometheus.MustRegister name reg = Done reg' →
  (name ∉ reg) ∧ reg' = {[name]} ∪ reg.
Proof.
  unfold prometheus.MustRegister. destruct (decide (name ∈ reg)); [done|].
  by intros [= <-].
Qed.

(** One round of the loop that goes through, with all it establishes. *)
Lemma LoadGateway_step mux reg i items metrics mux' reg' :
  LoadGateway mux reg (i :: items) metrics = Done (mux', reg') →
  ∃ g,
    throttled.NewGCRARateLimiter (quota_of i) = Ok g
    ∧ Frontend i ≠ EmptyString
    ∧ mux !! Frontend i = None
    ∧ (metrics = true →
         (counter_name (Label i) ∉ reg)
         ∧ histogram_name (Label i) ∉ (({[counter_name (Label i)]} ∪ reg) : gset string))
    ∧ LoadGateway (<[Frontend i := route_handler i g metrics]> mux)
        (if metrics
         then {[histogram_name (Label i)]} ∪ ({[counter_name (Label i)]} ∪ reg)
         else reg)
        items metrics = Done (mux', reg').
Proof.
  cbn [LoadGateway]. fold (quota_of i).
  destruct (throttled.NewGCRARateLimiter (quota_of i)) as [g|] eqn:Hg; [|done].
  assert (Hh : ∀ h (m1 : gmap string Handler),
             mux_Handle (Frontend i) h mux = Done m1 →
             Frontend i ≠ EmptyString ∧ mux !! Frontend i = None
             ∧ m1 = <[Frontend i := h]> mux).
  { intros h m1. unfold mux_Handle. destruct (decide _) as [|Hne]; [done|].
    destruct (mux !! Frontend i); [done|]. by intros [= <-]. }
  destruct metrics.
  - destruct (prometheus.MustRegister _ reg) as [reg1| |] eqn:H1; [|done..].
    cbn [mbind outcome_bind]. unfold NewResponseTime.
    destruct (prometheus.MustRegister _ reg1) as [reg2| |] eqn:H2; [|done..].
    cbn [mbind outcome_bind].
    destruct (mux_Handle _ _ mux) as [mux1| |] eqn:H3; [|done..].
    cbn [mbind outcome_bind]. intros HL.
    apply Hh in H3 as (Hne & Hfree & ->).
    apply MustRegister_Done in H1 as [Hc ->].
    apply MustRegister_Done in H2 as [Hhist ->].
    exists g. done.
  - destruct (mux_Handle _ _ mux) as [mux1| |] eqn:H3; [|done..].
    cbn [mbind outcome_bind]. intros HL.
    apply Hh in H3 as (Hne & Hfree & ->).
    exists g. done.
Qed.

(** X10. Loading a list in two parts: the second part is loaded into what the
    first part left, and is not looked at when the first part ends the
    start-up. *)
Theorem LoadGateway_app (mux : gmap string Handler) (reg : gset string)
    (l1 l2 : list GatewayItem) (metrics : bool) :
  LoadGateway mux reg (l1 ++ l2) metrics
  = match LoadGateway mux reg l1 metrics with
    | Done (mux1, reg1) => LoadGateway mux1 reg1 l2 metrics
    | Fatal msg => Fatal msg
    | Panic msg => Panic msg
    end.
Proof.
  revert mux reg. induction l1 as [|i l1 IH]; intros mux reg; [done|].
  cbn [app LoadGateway].
  destruct (throttled.NewGCRARateLimiter _) as [g|]; [|done].
  destruct metrics.
  - destruct (prometheus.MustRegister _ reg) as [reg1| |]; [|done..].
    cbn [mbind outcome_bind].
    destruct (NewResponseTime _ reg1) as [[rt reg2]| |]; [|done..].
    cbn [mbind outcome_bind].
    destruct (mux_Handle _ _ mux) as [mux1| |]; [|done..].
    cbn [mbind outcome_bind]. apply IH.
  - destruct (mux_Handle _ _ mux) as [mux1| |]; [|done..].
    cbn [mbind outcome_bind]. apply IH.
Qed.

Lemma LoadGateway_table_inv (items : list GatewayItem) :
  ∀ (mux : gmap string Handler) (reg : gset string) (metrics : bool)
    (mux' : gmap string Handler) (reg' : gset string),
    LoadGateway mux reg items metrics = Done (mux', reg') →
    (∀ i, i ∈ items →
       ∃ g, throttled.NewGCRARateLimiter (quota_of i) = Ok g
            ∧ mux' !! Frontend i = Some (route_handler i g metrics))
    ∧ (∀ p, p ∉ Frontend <$> items → mux' !! p = mux !! p).
Proof.
  induction items as [|i items IH]; intros mux reg metrics mux' reg' HL.
  - simpl in HL. injection HL as <- <-. split; [|done].
    intros i Hi. by apply elem_of_nil in Hi.
  - apply LoadGateway_step in HL as (g & Hg & _ & Hfree & _ & HL).
    destruct (LoadGateway_Done _ _ _ _ _ _ HL) as (_ & Hitems & _).
    destruct (IH _ _ _ _ _ HL) as [Hin Hout].
    assert (Hfresh : Frontend i ∉ Frontend <$> items).
    { intros Hi. apply list_elem_of_fmap in Hi as (j & Hj & Hjin).
      destruct (Hitems j Hjin) as [Hnone _].
      by rewrite <- Hj, lookup_insert_eq in Hnone. }
    split.
    + intros j Hj. apply elem_of_cons in Hj as [->|Hj]; [|by apply Hin].
      exists g. split; [done|]. by rewrite (Hout _ Hfresh), lookup_insert_eq.
    + intros p Hp. rewrite fmap_cons in Hp. apply not_elem_of_cons in Hp as [Hpi Hp].
      rewrite (Hout p Hp). by rewrite lookup_insert_ne.
Qed.

(** X11. After a completed load every item is served by its own handler, under
    its frontend path, and every other pattern of the mux is as before. *)
Theorem LoadGateway_table (items : list GatewayItem)
    (mux : gmap string Handler) (reg : gset string) (metrics : bool)
    (mux' : gmap string Handler) (reg' : gset string) :
  LoadGateway mux reg items metrics = Done (mux', reg') →
  (∀ i, i ∈ items →
     ∃ g, throttled.NewGCRARateLimiter (quota_of i) = Ok g
          ∧ mux' !! Frontend i = Some (route_handler i g metrics))
  ∧ (∀ p, p ∉ Frontend <$> items → mux' !! p = mux !! p).
Proof. apply LoadGateway_table_inv. Qed.

Lemma LoadGateway_table_witness :
  LoadGateway ∅ ∅ [sample.route_b] true = Done (sample.mux_b, sample.registry_b)
  ∧ (∀ i, i ∈ [sample.route_b] →
       ∃ g, throttled.NewGCRARateLimiter (quota_of i) = Ok g
            ∧ sample.mux_b !! Frontend i = Some (route_handler i g true))
  ∧ (∀ p, p ∉ Frontend <$> [sample.route_b] →
       sample.mux_b !! p = (∅ : gmap string Handler) !! p).
Proof.
  assert (H : LoadGateway ∅ ∅ [sample.route_b] true
              = Done (sample.mux_b, sample.registry_b)) by reflexivity.
  exact (conj H (LoadGateway_table [sample.route_b] ∅ ∅ true
                   sample.mux_b sample.registry_b H)).
Defined.

Lemma LoadGateway_registry_inv (items : list GatewayItem) :
  ∀ (mux : gmap string Handler) (reg : gset string) (metrics : bool)
    (mux' : gmap string Handler) (reg' : gset string),
    LoadGateway mux reg items metrics = Done (mux', reg') →
    reg' = (if metrics then metric_names items ∪ reg else reg)
    ∧ (metrics = true → ∀ name, name ∈ metric_names items → name ∉ reg).
Proof.
  unfold metric_names.
  induction items as [|i items IH]; intros mux reg metrics mux' reg' HL.
  - simpl in HL. injection HL as <- <-. split.
    + destruct metrics; [|done]. cbn [flat_map list_to_set].
      by rewrite (left_id_L ∅ (∪)).
    + intros _ name Hname. cbn [flat_map list_to_set] in Hname.
      by apply not_elem_of_empty in Hname.
  - apply LoadGateway_step in HL as (g & _ & _ & _ & Hnames & HL).
    destruct (IH _ _ _ _ _ HL) as [-> Hfree].
    destruct metrics; [|done].
    destruct (Hnames eq_refl) as [Hc Hh]. specialize (Hfree eq_refl).
    cbn [flat_map app list_to_set].
    set (A := list_to_set (C := gset string)
      (flat_map (λ i0, [counter_name (Label i0); histogram_name (Label i0)])
         items)) in *.
    set (c := counter_name (Label i)) in *.
    set (h := histogram_name (Label i)) in *.
    split.
    + apply set_eq. intros x. rewrite !elem_of_union, !elem_of_singleton. tauto.
    + intros _ name Hname Hreg.
      rewrite !elem_of_union, !elem_of_singleton in Hname.
      destruct Hname as [->|[->|HA]].
      * done.
      * apply Hh. apply elem_of_union. by right.
      * apply (Hfree name HA). rewrite !elem_of_union. by right; right.
Qed.

(** X12. The registry after a completed load: without metrics it is untouched;
    with metrics it has grown by the counter and the histogram name of
    every item, none of which was registered before. *)
Theorem LoadGateway_registry (items : list GatewayItem)
    (mux : gmap string Handler) (reg : gset string) (metrics : bool)
    (mux' : gmap string Handler) (reg' : gset string) :
  LoadGateway mux reg items metrics = Done (mux', reg') →
  reg' = (if metrics then metric_names items ∪ reg else reg)
  ∧ (metrics = true → ∀ name, name ∈ metric_names items → name ∉ reg).
Proof. apply LoadGateway_registry_inv. Qed.

Lemma LoadGateway_registry_witness :
  LoadGateway ∅ ∅ [sample.route_b] true = Done (sample.mux_b, sample.registry_b)
  ∧ sample.registry_b = metric_names [sample.route_b] ∪ ∅.
Proof.
  assert (H : LoadGateway ∅ ∅ [sample.route_b] true
              = Done (sample.mux_b, sample.registry_b)) by reflexivity.
  exact (conj H (proj1 (LoadGateway_registry [sample.route_b] ∅ ∅ true
                          sample.mux_b sample.registry_b H))).
Defined.

(** ** What stops the start-up *)

Lemma counter_name_in_metric_names (j : GatewayItem) items :
  j ∈ items → counter_name (Label j) ∈ metric_names items.
Proof.
  intros Hj. unfold metric_names. apply elem_of_list_to_set.
  apply list_elem_of_In, in_flat_map. exists j.
  split; [by apply list_elem_of_In|]. by left.
Qed.

Lemma LoadGateway_labels_NoDup (items : list GatewayItem) :
  ∀ (mux : gmap string Handler) (reg : gset string)
    (mux' : gmap string Handler) (reg' : gset string),
    LoadGateway mux reg items true = Done (mux', reg') →
    NoDup (Label <$> items).
Proof.
  induction items as [|i items IH]; intros mux reg mux' reg' HL;
    [constructor|].
  apply LoadGateway_step in HL as (g & _ & _ & _ & _ & HL).
  rewrite fmap_cons. constructor; [|by eapply IH].
  intros Hin. apply list_elem_of_fmap in Hin as (j & Hj & Hjin).
  destruct (LoadGateway_registry_inv _ _ _ _ _ _ HL) as [_ Hfree].
  apply (Hfree eq_refl (counter_name (Label j))).
  - by apply counter_name_in_metric_names.
  - rewrite <- Hj, !elem_of_union, !elem_of_singleton. right; by left.
Qed.

(** X13. With metrics on, two items carrying the same label stop the start-up:
    the second registration of the label's counter panics, if the start-up
    did not end before. *)
Theorem duplicate_label_stops_loading (mux : gmap string Handler)
    (reg : gset string) (items : list GatewayItem) (a b : nat)
    (i j : GatewayItem) :
  items !! a = Some i → items !! b = Some j → a ≠ b →
  Label i = Label j →
  completes (LoadGateway mux reg items true) = false.
Proof.
  intros Ha Hb Hab Hl.
  destruct (LoadGateway mux reg items true) as [[mux' reg']| |] eqn:HL;
    [|done..].
  exfalso. apply LoadGateway_labels_NoDup in HL.
  apply Hab. eapply NoDup_lookup; [exact HL| |].
  - rewrite list_lookup_fmap, Ha. reflexivity.
  - rewrite list_lookup_fmap, Hb. simpl. by rewrite Hl.
Qed.

Lemma duplicate_label_stops_loading_witness :
  [sample.route_a; sample_more.route_c] !! 0%nat = Some sample.route_a
  ∧ [sample.route_a; sample_more.route_c] !! 1%nat = Some sample_more.route_c
  ∧ 0%nat ≠ 1%nat
  ∧ Label sample.route_a = Label sample_more.route_c
  ∧ completes (LoadGateway ∅ ∅ [sample.route_a; sample_more.route_c] true)
    = false.
Proof.
  assert (H1 : [sample.route_a; sample_more.route_c] !! 0%nat
               = Some sample.route_a) by reflexivity.
  assert (H2 : [sample.route_a; sample_more.route_c] !! 1%nat
               = Some sample_more.route_c) by reflexivity.
  assert (H3 : 0%nat ≠ 1%nat) by lia.
  assert (H4 : Label sample.route_a = Label sample_more.route_c)
    by reflexivity.
  exact (conj H1 (conj H2 (conj H3 (conj H4
    (duplicate_label_stops_loading ∅ ∅ _ 0 1 _ _ H1 H2 H3 H4))))).
Defined.

Lemma LoadGateway_frontends_nonempty (items : list GatewayItem) :
  ∀ (mux : gmap string Handler) (reg : gset string) (metrics : bool)
    (mux' : gmap string Handler) (reg' : gset string),
    LoadGateway mux reg items metrics = Done (mux', reg') →
    ∀ i, i ∈ items → Frontend i ≠ EmptyString.
Proof.
  induction items as [|i items IH]; intros mux reg metrics mux' reg' HL j Hj.
  - by apply elem_of_nil in Hj.
  - apply LoadGateway_step in HL as (g & _ & Hne & _ & _ & HL).
    apply elem_of_cons in Hj as [->|Hj]; [done|]. by eapply IH.
Qed.

(** X14. An item without a frontend path stops the start-up: registering the
    empty pattern panics, if the start-up did not end before. *)
Theorem empty_frontend_stops_loading (mux : gmap string Handler)
    (reg : gset string) (items : list GatewayItem) (metrics : bool)
    (i : GatewayItem) :
  i ∈ items → Frontend i = EmptyString →
  completes (LoadGateway mux reg items metrics) = false.
Proof.
  intros Hi He.
  destruct (LoadGateway mux reg items metrics) as [[mux' reg']| |] eqn:HL;
    [|done..].
  exfalso. by eapply LoadGateway_frontends_nonempty.
Qed.

Lemma empty_frontend_stops_loading_witness :
  sample_more.route_e ∈ [sample.route_a; sample_more.route_e]
  ∧ Frontend sample_more.route_e = EmptyString
  ∧ completes (LoadGateway ∅ ∅ [sample.route_a; sample_more.route_e] false)
    = false.
Proof.
  assert (H1 : sample_more.route_e ∈ [sample.route_a; sample_more.route_e])
    by (apply elem_of_cons; right; apply elem_of_cons; by left).
  assert (H2 : Frontend sample_more.route_e = EmptyString) by reflexivity.
  exact (conj H1 (conj H2
    (empty_frontend_stops_loading ∅ ∅ _ false _ H1 H2))).
Defined.

(** X15. With metrics on, a route declared on the path /metrics stops the
    start-up: the scrape endpoint is registered after the routes, on a
    pattern that is then taken. *)
Theorem metrics_path_taken_stops_start (config : Configuration)
    (i : GatewayItem) :
  Metrics config = true → i ∈ Routes config → Frontend i = "/metrics" →
  completes (start config) = false.
Proof.
  intros Hm Hi Hf. unfold start. cbn [memstore_New].
  destruct (LoadGateway ∅ ∅ (Routes config) (Metrics config))
    as [[mux reg]| |] eqn:HL; [|done..].
  cbn [mbind outcome_bind]. rewrite Hm.
  destruct (LoadGateway_table_inv _ _ _ _ _ _ HL) as [Hin _].
  destruct (Hin i Hi) as (g & _ & Hlook). rewrite Hf in Hlook.
  unfold mux_Handle. rewrite decide_False by done. by rewrite Hlook.
Qed.

Lemma metrics_path_taken_stops_start_witness :
  let config := {| Routes := [sample_more.route_m]; Metrics := true;
                   Port := "8080" |} in
  Metrics config = true
  ∧ sample_more.route_m ∈ Routes config
  ∧ Frontend sample_more.route_m = "/metrics"
  ∧ completes (start config) = false.
Proof.
  intros config.
  assert (H1 : Metrics config = true) by reflexivity.
  assert (H2 : sample_more.route_m ∈ Routes config)
    by (apply elem_of_cons; by left).
  assert (H3 : Frontend sample_more.route_m = "/metrics") by reflexivity.
  exact (conj H1 (conj H2 (conj H3
    (metrics_path_taken_stops_start config sample_more.route_m H1 H2 H3)))).
Defined.

(** X16. A process that gets to serve was started from a file that could be
    read and parsed, and serves exactly this table: every configured route
    under its frontend path with its own handler, the scrape endpoint under
    /metrics when metrics are on, and nothing else. *)
Theorem main_serves_routes (readFile : result string)
    (Unmarshal : string → result Configuration) (srv : Server) :
  main readFile Unmarshal = Done srv →
  ∃ data config,
    readFile = Ok data ∧ Unmarshal data = Ok config
    ∧ (∀ i, i ∈ Routes config →
         ∃ g, throttled.NewGCRARateLimiter (quota_of i) = Ok g
              ∧ srv_Handler srv !! Frontend i
                = Some (route_handler i g (Metrics config)))
    ∧ (Metrics config = true →
         srv_Handler srv !! "/metrics" = Some promhttp_Handler)
    ∧ (∀ p, p ∉ Frontend <$> Routes config →
         ¬ (Metrics config = true ∧ p = "/metrics") →
         srv_Handler srv !! p = None).
Proof.
  unfold main. destruct readFile as [data|err]; [|done].
  destruct (Unmarshal data) as [config|err] eqn:Hu; [|done].
  unfold start. cbn [memstore_New].
  destruct (LoadGateway ∅ ∅ (Routes config) (Metrics config))
    as [[mux reg]| |] eqn:HL; [|done..].
  cbn [mbind outcome_bind].
  destruct (LoadGateway_table_inv _ _ _ _ _ _ HL) as [Hin Hout].
  destruct (Metrics config) eqn:Hm.
  - destruct (mux_Handle "/metrics" promhttp_Handler mux) as [mux1| |] eqn:Hh;
      [|done..].
    cbn [mbind outcome_bind]. intros [= <-]. cbn [srv_Handler].
    apply mux_Handle_Done in Hh as [Hfree ->].
    exists data, config. do 2 (split; [done|]). split; [|split].
    + intros i Hi. destruct (Hin i Hi) as (g & Hg & Hlook).
      exists g. split; [done|]. rewrite Hm, lookup_insert_ne; [done|].
      intros E. rewrite <- E, Hfree in Hlook. done.
    + intros _. by rewrite lookup_insert_eq.
    + intros p Hp Hnot. rewrite lookup_insert_ne.
      * rewrite (Hout p Hp). apply lookup_empty.
      * intros E. apply Hnot. by split.
  - cbn [mbind outcome_bind]. intros [= <-]. cbn [srv_Handler].
    exists data, config. do 2 (split; [done|]). split; [|split].
    + intros i Hi. destruct (Hin i Hi) as (g & Hg & Hlook).
      exists g. by rewrite Hm.
    + intros Ht. congruence.
    + intros p Hp _. rewrite (Hout p Hp). apply lookup_empty.
Qed.

Lemma main_serves_routes_witness :
  main (Ok "routes") (λ _, Ok sample.config_a) = Done sample.server_a
  ∧ ∃ data config,
      Ok "routes" = Ok data
      ∧ (λ _ : string, Ok sample.config_a) data = Ok config
      ∧ (∀ i, i ∈ Routes config →
           ∃ g, throttled.NewGCRARateLimiter (quota_of i) = Ok g
                ∧ srv_Handler sample.server_a !! Frontend i
                  = Some (route_handler i g (Metrics config)))
      ∧ (Metrics config = true →
           srv_Handler sample.server_a !! "/metrics" = Some promhttp_Handler)
      ∧ (∀ p, p ∉ Frontend <$> Routes config →
           ¬ (Metrics config = true ∧ p = "/metrics") →
           srv_Handler sample.server_a !! p = None).
Proof.
  assert (H : main (Ok "routes") (λ _, Ok sample.config_a)
              = Done sample.server_a) by reflexivity.
  exact (conj H (main_serves_routes (Ok "routes")
                   (λ _, Ok sample.config_a) sample.server_a H)).
Defined.

(** X17. A collector is created once per label: [NewResponseTime] registers the
    histogram named after the label, which must not be registered yet, and
    a second call for the same label panics. *)
Theorem NewResponseTime_once (label : string) (reg : gset string)
    (rt : ResponseTime) (reg' : gset string) :
  NewResponseTime label reg = Done (rt, reg') →
  responseTimeHistogram rt = histogram_name label
  ∧ (histogram_name label ∉ reg)
  ∧ reg' = {[histogram_name label]} ∪ reg
  ∧ completes (NewResponseTime label reg') = false.
Proof.
  unfold NewResponseTime.
  destruct (prometheus.MustRegister (histogram_name label) reg)
    as [reg1| |] eqn:H1; [|done..].
  cbn [mbind outcome_bind]. intros [= <- <-].
  apply MustRegister_Done in H1 as [Hfree ->].
  do 3 (split; [done|]).
  unfold prometheus.MustRegister. rewrite decide_True; [done|].
  apply elem_of_union. left. by apply elem_of_singleton.
Qed.

Lemma NewResponseTime_once_witness :
  NewResponseTime "a" ∅
  = Done (sample.collector_a, {[histogram_name "a"]} ∪ ∅)
  ∧ completes (NewResponseTime "a" ({[histogram_name "a"]} ∪ ∅)) = false.
Proof.
  assert (H : NewResponseTime "a" ∅
    = Done (sample.collector_a, {[histogram_name "a"]} ∪ ∅)) by reflexivity.
  exact (conj H (proj2 (proj2 (proj2
    (NewResponseTime_once "a" ∅ sample.collector_a _ H))))).
Defined.
